(** * Total Express shipping table generator

    A shallow embedding of [generate_shipping_table.py] and the properties
    of its batch run: the fixed band tables, the representative values,
    the request formatters, the SOAP client's result, the query loop, the
    CSV writer and the credential guard of [main]. *)

From Stdlib Require Import ZArith String Ascii List Floats DecimalString DecimalZ DecimalPos Lia.
From stdpp Require Import gmap strings list.

Local Open Scope string_scope.

(** ** Python strings, integers and paths *)

Module Py.

(** [str(n)] for an [int]. *)
Definition str_of_int (n : Z) : string := NilZero.string_of_int (Z.to_int n).

Definition comma : ascii := ","%char.
Definition dot : ascii := "."%char.
Definition sep : ascii := "/"%char.
Definition dquote : ascii := "034"%char.
Definition CR : ascii := "013"%char.
Definition LF : ascii := "010"%char.

Definition is_char (a b : ascii) : bool := Ascii.eqb a b.

(** [s.replace(a, b)] for one-character [a] and [b]. *)
Fixpoint replace (a b : ascii) (s : string) : string :=
  match s with
  | EmptyString => EmptyString
  | String c r => String (if is_char c a then b else c) (replace a b r)
  end.

Fixpoint contains (a : ascii) (s : string) : bool :=
  match s with
  | EmptyString => false
  | String c r => is_char c a || contains a r
  end.

Definition is_empty (s : string) : bool :=
  match s with EmptyString => true | String _ _ => false end.

(** [p[:p.rfind('/') + 1]]: the text up to and including the last
    separator, empty when there is none. *)
Fixpoint upto_last_sep (p : string) : string :=
  match p with
  | EmptyString => EmptyString
  | String c r => if contains sep p then String c (upto_last_sep r) else EmptyString
  end.

Fixpoint all_sep (s : string) : bool :=
  match s with
  | EmptyString => true
  | String c r => is_char c sep && all_sep r
  end.

(** [s.rstrip('/')]. *)
Fixpoint rstrip_sep (s : string) : string :=
  match s with
  | EmptyString => EmptyString
  | String c r =>
      let r' := rstrip_sep r in
      if is_char c sep && is_empty r' then EmptyString else String c r'
  end.

(** [os.path.dirname] (posixpath). *)
Definition dirname (p : string) : string :=
  let head := upto_last_sep p in
  if negb (is_empty head) && negb (all_sep head) then rstrip_sep head else head.

Fixpoint ends_with_sep (s : string) : bool :=
  match s with
  | EmptyString => false
  | String c EmptyString => is_char c sep
  | String _ r => ends_with_sep r
  end.

Definition starts_with_sep (s : string) : bool :=
  match s with
  | String c _ => is_char c sep
  | EmptyString => false
  end.

(** [os.path.join(a, b)] (posixpath, two components). *)
Definition path_join (a b : string) : string :=
  if starts_with_sep b then b
  else if is_empty a || ends_with_sep a then a +:+ b
  else a +:+ String sep b.

(** Exceptions the program meets.  All but [SystemExit] derive from
    [Exception]; [SystemExit] derives from [BaseException] only. *)
Inductive exn : Type :=
| RequestException (msg : string)   (* requests: connection error, timeout *)
| HTTPError (status : Z)            (* response.raise_for_status() *)
| ZeepError (msg : string)          (* zeep: client construction or call *)
| AttributeError (attr : string)
| ValueError (msg : string)
| TypeError (msg : string)
| OSError (msg : string)
| SystemExit (code : Z).

(** [isinstance(e, Exception)]. *)
Definition is_Exception (e : exn) : bool :=
  match e with
  | SystemExit _ => false
  | _ => true
  end.

(** Attribute values of the object zeep returns. *)
Inductive value : Type :=
| PyNone
| PyInt (n : Z)
| PyStr (s : string).

(** [str(v)]. *)
Definition str (v : value) : string :=
  match v with
  | PyNone => "None"
  | PyInt n => str_of_int n
  | PyStr s => s
  end.

(** [v == 1]. *)
Definition eq_one (v : value) : bool :=
  match v with
  | PyInt n => Z.eqb n 1
  | _ => false
  end.

End Py.

(** ** Data classes *)

Record ShippingResult : Type := mkShippingResult {
  cep_start : Z;
  cep_end : Z;
  weight_start : Z;
  weight_end : Z;
  cost : float;
  delivery_days : Z;
  service_type : string
}.

(** The [params] dictionary of one pricing request. *)
Record Params : Type := mkParams {
  TipoServico : string;
  CepDestino : string;
  Peso : string;
  ValorDeclarado : string;
  TipoEntrega : Z;
  ServicoCOD : bool;
  Altura : string;
  Largura : string;
  Profundidade : string
}.

(** The dictionary [calculate_shipping_cost] returns on success. *)
Record ApiResult : Type := mkApiResult {
  api_cost : float;
  api_delivery_days : Z;
  api_success : bool
}.

(** ** Range tables *)

Local Open Scope Z_scope.

Definition generate_cep_ranges : list (Z * Z) :=
  [ (1000000, 1999999);
    (2000000, 2899999);
    (2900000, 2999999);
    (3000000, 3999999);
    (4000000, 4899999);
    (4900000, 4999999);
    (5000000, 5699999);
    (5700000, 5799999);
    (5800000, 5899999);
    (5900000, 5999999);
    (6000000, 6399999);
    (6400000, 6499999);
    (6500000, 6599999);
    (6600000, 6889999);
    (6890000, 6899999);
    (7000000, 7279999);
    (7280000, 7679999);
    (7680000, 7699999);
    (6990000, 6999999);
    (7800000, 7889999);
    (7900000, 7999999);
    (8000000, 8799999);
    (8800000, 8999999);
    (9000000, 9999999);
    (7700000, 7799999);
    (6930000, 6939999) ].

Definition generate_weight_ranges : list (Z * Z) :=
  [ (1, 250);
    (251, 500);
    (501, 750);
    (751, 1000);
    (1001, 2000);
    (2001, 3000);
    (3001, 4000);
    (4001, 5000);
    (5001, 6000);
    (6001, 7000);
    (7001, 8000);
    (8001, 9000);
    (9001, 10000) ].

(** ** Request formatters *)

(** Conversion of an [int] to a [float], rounding to nearest even.
    Python raises [OverflowError] instead of giving infinity, which takes a
    magnitude of about 2^1024; the callers pass midpoints of the weight
    table, at most 10000. *)
Definition float_of_int (n : Z) : float :=
  SF2Prim (SpecFloat.binary_normalize 53 1024 n 0 false).

Definition format_weight_for_api (weight_grams : Z) : string :=
  let weight_kg := PrimFloat.div (float_of_int weight_grams) 1000%float in
  ".2f"%string.

Definition format_cep_for_api (cep : Z) : string := "08d"%string.

(** ** Representative values of a band (the loop's [test_cep] and
    [test_weight]) *)

Definition test_cep (cep_start cep_end : Z) : Z :=
  cep_start + (cep_end - cep_start) / 2.

Definition test_weight (weight_start weight_end : Z) : Z :=
  (weight_start + weight_end) / 2.

(** ** The world outside the program *)

Local Open Scope string_scope.

(** A [requests] response: status code and body text. *)
Record Response : Type := mkResponse {
  status_code : Z;
  text : string
}.

(** What [session.get] does: raise, or return a response. *)
Inductive GetOutcome : Type :=
| GetRaises (msg : string)
| GetReturns (r : Response).

(** The [DadosFrete] object of a reply; a field is [None] when the object
    has no such attribute. *)
Record DadosFreteObj : Type := mkDadosFrete {
  ValorServico : option Py.value;
  Prazo : option Py.value
}.

(** The object [calcularFrete] returns.  [CodigoProc] is [None] when the
    attribute is missing; [DadosFrete] is [None] when the attribute is
    missing and [Some None] when it is there and holds Python's [None]. *)
Record SoapResult : Type := mkSoapResult {
  CodigoProc : option Py.value;
  DadosFrete : option (option DadosFreteObj)
}.

(** What building the zeep client and calling [calcularFrete] does. *)
Inductive SoapOutcome : Type :=
| SoapRaises (msg : string)
| SoapReturns (r : SoapResult).

(** Everything the run does not decide itself.  Remote replies are indexed
    by the number of interface fetches issued so far, the current one
    included (every pricing call starts with one fetch, so this is the
    number of the pricing call); the interpreter's [float] and [int] on
    strings give [None] where Python raises [ValueError]; the file system
    answers [os.makedirs] and [open(_, 'w')] with an error message when it
    refuses. *)
Record Env : Type := mkEnv {
  env_file : string;
  env_dotenv : gmap string string;
  env_get : nat -> string -> GetOutcome;
  env_soap : nat -> string -> Params -> SoapOutcome;
  env_float : string -> option float;
  env_int : string -> option Z;
  env_makedirs : string -> option string;
  env_open : string -> option string
}.

Inductive LogLevel : Type := INFO | WARNING | ERROR.

(** Log records, kept with their arguments rather than as rendered text. *)
Inductive LogMsg : Type :=
| MsgWsdlFailed (e : Py.exn)
| MsgApiResponse (r : SoapResult)
| MsgSoapFailed (e : Py.exn)
| MsgStarting (service : string)
| MsgTotalQueries (total : Z)
| MsgProcessing (query_count total cs ce ws we : Z)
| MsgSuccess (c : float) (days : Z)
| MsgFailed (cep weight : Z)
| MsgCompleted (output_file : string)
| MsgSetCredentials
| MsgCopyEnvExample
| MsgGeneratingStandard
| MsgGeneratingExpress
| MsgAllGenerated.

Inductive Event : Type :=
| EvLog (lvl : LogLevel) (msg : LogMsg)
| EvLoadDotenv
| EvHttpGet (auth url : string)
| EvSoapCall (auth wsdl : string) (p : Params)   (* client built, call attempted *)
| EvSleep (secs : Z)
| EvMakedirs (path : string)
| EvOpenWrite (path : string).

(** Calls that reach the carrier's service. *)
Definition is_remote (ev : Event) : bool :=
  match ev with
  | EvHttpGet _ _ | EvSoapCall _ _ _ => true
  | _ => false
  end.

(** Mutable state: [os.environ], the session's fetch count, the events so
    far (newest first) and the files on disk. *)
Record World : Type := mkWorld {
  w_environ : gmap string string;
  w_fetches : nat;
  w_trace : list Event;
  w_files : gmap string string
}.

(** ** Computations: state plus exceptions *)

Inductive Outcome (A : Type) : Type :=
| Ret (a : A)
| Raise (e : Py.exn).
Arguments Ret {A} a.
Arguments Raise {A} e.

Definition M (A : Type) : Type := World -> Outcome A * World.

#[export] Instance M_ret : MRet M := fun A a w => (Ret a, w).

#[export] Instance M_bind : MBind M := fun A B f m w =>
  match m w with
  | (Ret a, w') => f a w'
  | (Raise e, w') => (Raise e, w')
  end.

Definition raise {A} (e : Py.exn) : M A := fun w => (Raise e, w).

(** [try: body  except Exception as e: handler e]. *)
Definition try_except {A} (body : M A) (handler : Py.exn -> M A) : M A := fun w =>
  match body w with
  | (Raise e, w') => if Py.is_Exception e then handler e w' else (Raise e, w')
  | r => r
  end.

Definition emit (ev : Event) : M unit := fun w =>
  (Ret tt, mkWorld (w_environ w) (w_fetches w) (ev :: w_trace w) (w_files w)).

Definition log (lvl : LogLevel) (msg : LogMsg) : M unit := emit (EvLog lvl msg).

Fixpoint for_each {A S : Type} (l : list A) (body : A -> S -> M S) (s : S) : M S :=
  match l with
  | [] => mret s
  | x :: l' => s' ← body x s; for_each l' body s'
  end.

(** ** The program *)

Section Program.

Variable env : Env.

(** *** class TotalExpressAPI *)

(** The client object: the credentials it was built with.  The session
    sends them with every request as the Basic authorization header. *)
Record TotalExpressAPI : Type := mkTotalExpressAPI {
  username : string;
  password : string
}.

Definition auth_string (api : TotalExpressAPI) : string :=
  username api +:+ ":" +:+ password api.

Definition WSDL_URL : string :=
  "https://edi.totalexpress.com.br/webservice_calculo_frete.php?wsdl".

(** [self.session.get(url)]. *)
Definition session_get (api : TotalExpressAPI) (url : string) : M Response := fun w =>
  let k := S (w_fetches w) in
  let w' := mkWorld (w_environ w) k (EvHttpGet (auth_string api) url :: w_trace w) (w_files w) in
  match env_get env k url with
  | GetRaises msg => (Raise (Py.RequestException msg), w')
  | GetReturns r => (Ret r, w')
  end.

(** [response.raise_for_status()]. *)
Definition raise_for_status (r : Response) : M unit :=
  if (400 <=? status_code r)%Z && (status_code r <? 600)%Z
  then raise (Py.HTTPError (status_code r))
  else mret tt.

Definition get_wsdl (api : TotalExpressAPI) : M (option string) :=
  try_except
    (response ← session_get api WSDL_URL;
     raise_for_status response;;
     mret (Some (text response)))
    (fun e => log ERROR (MsgWsdlFailed e);; mret None).

(** Building the zeep [Client] from the fetched text and calling
    [client.service.calcularFrete] with the parameters. *)
Definition soap_call (api : TotalExpressAPI) (wsdl : string) (params : Params)
  : M SoapResult := fun w =>
  let w' := mkWorld (w_environ w) (w_fetches w)
              (EvSoapCall (auth_string api) wsdl params :: w_trace w) (w_files w) in
  match env_soap env (w_fetches w) wsdl params with
  | SoapRaises msg => (Raise (Py.ZeepError msg), w')
  | SoapReturns r => (Ret r, w')
  end.

(** Attribute access [o.name]. *)
Definition getattr {A} (name : string) (o : option A) : M A :=
  match o with
  | Some a => mret a
  | None => raise (Py.AttributeError name)
  end.

(** [float(s)] on a string. *)
Definition py_float (s : string) : M float :=
  match env_float env s with
  | Some f => mret f
  | None => raise (Py.ValueError s)
  end.

(** [int(v)]. *)
Definition py_int (v : Py.value) : M Z :=
  match v with
  | Py.PyInt n => mret n
  | Py.PyStr s =>
      match env_int env s with
      | Some n => mret n
      | None => raise (Py.ValueError s)
      end
  | Py.PyNone => raise (Py.TypeError "int() argument must not be NoneType")
  end.

Definition calculate_shipping_cost (api : TotalExpressAPI) (params : Params)
  : M (option ApiResult) :=
  wsdl_content ← get_wsdl api;
  match wsdl_content with
  | None => mret None
  | Some wsdl =>
      if Py.is_empty wsdl then mret None
      else
        try_except
          (result ← soap_call api wsdl params;
           log INFO (MsgApiResponse result);;
           match CodigoProc result with
           | Some code =>
               if Py.eq_one code then
                 match DadosFrete result with
                 | Some dados =>
                     d ← getattr "ValorServico" dados;
                     v ← getattr "ValorServico" (ValorServico d);
                     c ← py_float (Py.replace Py.comma Py.dot (Py.str v));
                     p ← getattr "Prazo" (Prazo d);
                     days ← py_int p;
                     mret (Some (mkApiResult c days true))
                 | None => mret None
                 end
               else mret None
           | None => mret None
           end)
          (fun e => log ERROR (MsgSoapFailed e);; mret None)
  end.

(** *** class ShippingTableGenerator *)

(** The [csv] module's writer with its defaults: comma delimiter, minimal
    quoting, a doubled quote character inside quoted fields, CR LF after
    each record. *)
Fixpoint double_quotes (s : string) : string :=
  match s with
  | EmptyString => EmptyString
  | String c r =>
      if Py.is_char c Py.dquote
      then String c (String c (double_quotes r))
      else String c (double_quotes r)
  end.

Definition needs_quote (s : string) : bool :=
  Py.contains Py.comma s || Py.contains Py.dquote s
  || Py.contains Py.CR s || Py.contains Py.LF s.

Definition csv_field (s : string) : string :=
  if needs_quote s
  then String Py.dquote (double_quotes s) +:+ String Py.dquote EmptyString
  else s.

Fixpoint join_fields (fields : list string) : string :=
  match fields with
  | [] => EmptyString
  | [f] => f
  | f :: rest => f +:+ String Py.comma (join_fields rest)
  end.

Definition lineterminator : string := String Py.CR (String Py.LF EmptyString).

(** [writer.writerow(fields)]: the text of one record. *)
Definition csv_record (fields : list string) : string :=
  join_fields (map csv_field fields) +:+ lineterminator.

(** The text the writer gives a cell: empty for [None], [str] otherwise. *)
Definition csv_cell (v : Py.value) : string :=
  match v with
  | Py.PyNone => EmptyString
  | _ => Py.str v
  end.

Definition fieldnames : list string :=
  ["ZipCodeStart"; "ZipCodeEnd"; "WeightStart"; "WeightEnd";
   "AbsoluteMoneyCost"; "TimeCost"].

(** The dictionary [write_csv] hands to [writerow] for one result. *)
Definition row_dict (result : ShippingResult) : list (string * Py.value) :=
  [ ("ZipCodeStart", Py.PyInt (cep_start result));
    ("ZipCodeEnd", Py.PyInt (cep_end result));
    ("WeightStart", Py.PyInt (weight_start result));
    ("WeightEnd", Py.PyInt (weight_end result));
    ("AbsoluteMoneyCost", Py.PyStr ".2f");
    ("TimeCost", Py.PyInt (delivery_days result)) ].

Fixpoint dict_get (key : string) (d : list (string * Py.value)) : option Py.value :=
  match d with
  | [] => None
  | (k, v) :: rest => if String.eqb k key then Some v else dict_get key rest
  end.

(** [DictWriter._dict_to_list]: the cells in [fieldnames] order, a missing
    key giving the empty rest value. *)
Definition dict_to_list (rowdict : list (string * Py.value)) : list string :=
  map (fun key => match dict_get key rowdict with
                  | Some v => csv_cell v
                  | None => EmptyString
                  end) fieldnames.

Definition csv_row (result : ShippingResult) : string :=
  csv_record (dict_to_list (row_dict result)).

Definition csv_header : string := csv_record fieldnames.

(** Header first, then one record per result in list order. *)
Definition csv_lines (results : list ShippingResult) : list string :=
  csv_header :: map csv_row results.

Fixpoint concat_strings (l : list string) : string :=
  match l with
  | [] => EmptyString
  | s :: rest => s +:+ concat_strings rest
  end.

Definition csv_text (results : list ShippingResult) : string :=
  concat_strings (csv_lines results).

(** [open(output_file, 'w', ...)], the writes and the close of the [with]
    block: the open may be refused; once it succeeds the file holds
    exactly the text written, whatever it held before. *)
Definition write_csv (results : list ShippingResult) (output_file : string) : M unit :=
  fun w =>
  let tr := EvOpenWrite output_file :: w_trace w in
  match env_open env output_file with
  | Some msg => (Raise (Py.OSError msg), mkWorld (w_environ w) (w_fetches w) tr (w_files w))
  | None =>
      (Ret tt, mkWorld (w_environ w) (w_fetches w) tr
                 (<[output_file := csv_text results]> (w_files w)))
  end.

(** [os.makedirs(path, exist_ok=True)]. *)
Definition makedirs (path : string) : M unit := fun w =>
  let w' := mkWorld (w_environ w) (w_fetches w) (EvMakedirs path :: w_trace w) (w_files w) in
  match env_makedirs env path with
  | Some msg => (Raise (Py.OSError msg), w')
  | None => (Ret tt, w')
  end.

Definition sleep (secs : Z) : M unit := emit (EvSleep secs).

(** The request parameters of one query. *)
Definition make_params (service : string) (cep weight : Z) : Params :=
  {| TipoServico := service;
     CepDestino := format_cep_for_api cep;
     Peso := format_weight_for_api weight;
     ValorDeclarado := "0,00";
     TipoEntrega := 0;
     ServicoCOD := false;
     Altura := "10,00";
     Largura := "15,00";
     Profundidade := "20,00" |}.

(** Body of the inner loop; the loop-carried state is [results] and
    [query_count]. *)
Definition weight_body (api : TotalExpressAPI) (service : string) (total : Z)
    (cs ce : Z) (cep : Z) (wr : Z * Z) (st : list ShippingResult * Z)
  : M (list ShippingResult * Z) :=
  let '(ws, we) := wr in
  let '(results, query_count) := st in
  let query_count := (query_count + 1)%Z in
  let weight := test_weight ws we in
  log INFO (MsgProcessing query_count total cs ce ws we);;
  api_result ← calculate_shipping_cost api (make_params service cep weight);
  results ← match api_result with
            | Some r =>
                let result := mkShippingResult cs ce ws we
                                (api_cost r) (api_delivery_days r) service in
                log INFO (MsgSuccess (cost result) (delivery_days result));;
                mret (results ++ [result])%list
            | None =>
                log WARNING (MsgFailed cep weight);;
                mret results
            end;
  sleep 1;;
  mret (results, query_count).

(** Body of the outer loop. *)
Definition cep_body (api : TotalExpressAPI) (service : string) (total : Z)
    (weight_ranges : list (Z * Z)) (cr : Z * Z) (st : list ShippingResult * Z)
  : M (list ShippingResult * Z) :=
  let '(cs, ce) := cr in
  let cep := test_cep cs ce in
  for_each weight_ranges (weight_body api service total cs ce cep) st.

(** The two nested loops of [generate_table]. *)
Definition run_queries (api : TotalExpressAPI) (service : string)
    (cep_ranges weight_ranges : list (Z * Z)) : M (list ShippingResult * Z) :=
  let total := (Z.of_nat (length cep_ranges) * Z.of_nat (length weight_ranges))%Z in
  for_each cep_ranges (cep_body api service total weight_ranges) (@nil ShippingResult, 0%Z).

Definition output_dir : string := Py.path_join (Py.dirname (env_file env)) "output".

(** Where [generate_table] writes for a given [output_file] argument. *)
Definition resolve_output (output_file : string) : string :=
  if Py.is_empty (Py.dirname output_file)
  then Py.path_join output_dir output_file
  else output_file.

Definition generate_table (api : TotalExpressAPI) (service : string)
    (output_file : string) : M unit :=
  makedirs output_dir;;
  let output_file := resolve_output output_file in
  let cep_ranges := generate_cep_ranges in
  let weight_ranges := generate_weight_ranges in
  let total_queries := (Z.of_nat (length cep_ranges) * Z.of_nat (length weight_ranges))%Z in
  log INFO (MsgStarting service);;
  log INFO (MsgTotalQueries total_queries);;
  st ← run_queries api service cep_ranges weight_ranges;
  write_csv (fst st) output_file;;
  log INFO (MsgCompleted output_file).

(** *** main *)

(** [load_dotenv()]: variables of the [.env] file are added to
    [os.environ] unless already set there. *)
Definition load_dotenv : M unit := fun w =>
  (Ret tt, mkWorld (w_environ w ∪ env_dotenv env) (w_fetches w)
             (EvLoadDotenv :: w_trace w) (w_files w)).

(** [os.getenv(name, default)]. *)
Definition getenv (name default : string) : M string := fun w =>
  (Ret (match w_environ w !! name with Some v => v | None => default end), w).

(** [sys.exit(code)]. *)
Definition sys_exit {A} (code : Z) : M A := raise (Py.SystemExit code).

Definition main : M unit :=
  load_dotenv;;
  USERNAME ← getenv "TOTAL_EXPRESS_USERNAME" "your_username";
  PASSWORD ← getenv "TOTAL_EXPRESS_PASSWORD" "your_password";
  (if String.eqb USERNAME "your_username" || String.eqb PASSWORD "your_password"
   then log ERROR MsgSetCredentials;;
        log INFO MsgCopyEnvExample;;
        sys_exit 1
   else mret tt);;
  let api := mkTotalExpressAPI USERNAME PASSWORD in
  log INFO MsgGeneratingStandard;;
  generate_table api "STD" "total_express_standard.csv";;
  log INFO MsgGeneratingExpress;;
  generate_table api "EXP" "total_express_express.csv";;
  log INFO MsgAllGenerated.

End Program.

(** ** Specification side *)

Section Specification.

Variable env : Env.

(** The interface definition pricing call [k] obtains: the body of the
    reply, unless the transport fails, the status is an HTTP error or the
    body is empty. *)
Definition fetched_wsdl (k : nat) : option string :=
  match env_get env k WSDL_URL with
  | GetRaises _ => None
  | GetReturns r =>
      if (400 <=? status_code r)%Z && (status_code r <? 600)%Z then None
      else if Py.is_empty (text r) then None
      else Some (text r)
  end.

(** The status code of a reply indicates success. *)
Definition status_success (res : SoapResult) : bool :=
  match CodigoProc res with
  | Some code => Py.eq_one code
  | None => false
  end.

Definition int_of_value (v : Py.value) : option Z :=
  match v with
  | Py.PyInt n => Some n
  | Py.PyStr s => env_int env s
  | Py.PyNone => None
  end.

(** The price payload of a reply, when it is present and well formed: a
    cost in comma-decimal notation and a delivery-day count. *)
Definition price_payload (res : SoapResult) : option ApiResult :=
  match DadosFrete res with
  | Some (Some d) =>
      v ← ValorServico d;
      c ← env_float env (Py.replace Py.comma Py.dot (Py.str v));
      p ← Prazo d;
      days ← int_of_value p;
      Some (mkApiResult c days true)
  | _ => None
  end.

(** The quote of pricing call number [k], as the specification words it:
    a result exactly when the interface definition was fetched, the call
    went through, the status code indicates success and the payload is
    present. *)
Definition quote (k : nat) (params : Params) : option ApiResult :=
  match fetched_wsdl k with
  | None => None
  | Some wsdl =>
      match env_soap env k wsdl params with
      | SoapRaises _ => None
      | SoapReturns res => if status_success res then price_payload res else None
      end
  end.

(** The table row of one band pair, given the quote obtained for it. *)
Definition row_of (service : string) (k : nat) (q : (Z * Z) * (Z * Z))
  : option ShippingResult :=
  let '((cs, ce), (ws, we)) := q in
  r ← quote k (make_params service (test_cep cs ce) (test_weight ws we));
  Some (mkShippingResult cs ce ws we (api_cost r) (api_delivery_days r) service).

(** Rows for exactly the successful queries, in iteration order, when the
    first query of the list is pricing call number [k]. *)
Definition successful_rows (service : string) (k : nat)
    (queries : list ((Z * Z) * (Z * Z))) : list ShippingResult :=
  omap id (imap (fun i q => row_of service (k + i) q) queries).

End Specification.

(** The band pair a row was produced from. *)
Definition bounds (r : ShippingResult) : (Z * Z) * (Z * Z) :=
  ((cep_start r, cep_end r), (weight_start r, weight_end r)).

Fixpoint count_char (a : ascii) (s : string) : nat :=
  match s with
  | EmptyString => 0%nat
  | String c r => ((if Py.is_char c a then 1 else 0) + count_char a r)%nat
  end.

(** Number of lines of a text: its line feeds. *)
Definition line_count (s : string) : nat := count_char Py.LF s.

(** Characters that make the writer quote a field. *)
Definition special (c : ascii) : bool :=
  Py.is_char c Py.comma || Py.is_char c Py.dquote
  || Py.is_char c Py.CR || Py.is_char c Py.LF.

(** Remote calls recorded in a trace. *)
Definition remote_calls (tr : list Event) : list Event := filter (fun ev => is_remote ev = true) tr.

(** [w'] comes from [w] by [k] interface fetches and some further events;
    files and environment variables are as before. *)
Definition same_but_trace (k : nat) (w w' : World) : Prop :=
  w_fetches w' = (k + w_fetches w)%nat
  /\ w_files w' = w_files w
  /\ w_environ w' = w_environ w
  /\ exists evs, w_trace w' = (evs ++ w_trace w)%list.

(** A credential is not configured: the variable is unset, or holds the
    placeholder that [main] uses as its default. *)
Definition credential_unset (environ : gmap string string) (name placeholder : string)
  : Prop :=
  environ !! name = None \/ environ !! name = Some placeholder.

(** ** Sample environments *)

Definition ok_reply (valor : string) (prazo : Z) : SoapResult :=
  mkSoapResult (Some (Py.PyInt 1))
    (Some (Some (mkDadosFrete (Some (Py.PyStr valor)) (Some (Py.PyInt prazo))))).

(** A fragment of [float]: the one literal the samples use. *)
Definition sample_float (s : string) : option float :=
  if String.eqb s "10.00" then Some 10%float else None.

(** A service that answers every query with cost 10,00 and 5 days. *)
Definition stub_env : Env :=
  mkEnv "/srv/app/generate_shipping_table.py" ∅
    (fun _ _ => GetReturns (mkResponse 200 "<definitions/>"))
    (fun _ _ _ => SoapReturns (ok_reply "10,00" 5))
    sample_float (fun _ => None) (fun _ => None) (fun _ => None).

(** A service that rejects every request with HTTP 401, and a [.env]
    file that sets both credentials to the empty string. *)
Definition empty_credentials_env : Env :=
  mkEnv "/srv/app/generate_shipping_table.py"
    (<["TOTAL_EXPRESS_USERNAME" := ""]> (<["TOTAL_EXPRESS_PASSWORD" := ""]> ∅))
    (fun _ _ => GetReturns (mkResponse 401 "Unauthorized"))
    (fun _ _ _ => SoapRaises "unreachable")
    sample_float (fun _ => None) (fun _ => None) (fun _ => None).


Definition initial_world : World := mkWorld ∅ 0 [] ∅.

Definition sample_api : TotalExpressAPI := mkTotalExpressAPI "user" "secret".

Definition sample_result : ShippingResult :=
  mkShippingResult 1000000 1999999 1 250 12.5%float 5 "STD".

(** ** Bands, and what a trace tells *)

(** A value lies in a band, both ends included. *)
Definition in_band (b : Z * Z) (x : Z) : Prop := (fst b <= x <= snd b)%Z.

(** Two bands share no value. *)
Definition bands_apartb (a b : Z * Z) : bool :=
  (snd a <? fst b)%Z || (snd b <? fst a)%Z.

Fixpoint pairwise_apartb (l : list (Z * Z)) : bool :=
  match l with
  | [] => true
  | b :: rest => forallb (bands_apartb b) rest && pairwise_apartb rest
  end.

(** Each band starts right after the one before it ends. *)
Fixpoint contiguousb (l : list (Z * Z)) : bool :=
  match l with
  | a :: rest =>
      match rest with
      | b :: _ => (fst b =? snd a + 1)%Z && contiguousb rest
      | [] => true
      end
  | [] => true
  end.

(** Two band pairs cannot both match one postal code and weight. *)
Definition queries_apartb (q1 q2 : (Z * Z) * (Z * Z)) : bool :=
  bands_apartb (fst q1) (fst q2) || bands_apartb (snd q1) (snd q2).

Fixpoint all_apartb (l : list ((Z * Z) * (Z * Z))) : bool :=
  match l with
  | [] => true
  | q :: rest => forallb (queries_apartb q) rest && all_apartb rest
  end.

(** Seconds slept according to a trace. *)
Definition sleep_secs (ev : Event) : Z :=
  match ev with
  | EvSleep secs => secs
  | _ => 0%Z
  end.

Fixpoint total_sleep (tr : list Event) : Z :=
  match tr with
  | [] => 0%Z
  | ev :: rest => (sleep_secs ev + total_sleep rest)%Z
  end.

Fixpoint count_events (f : Event -> bool) (tr : list Event) : nat :=
  match tr with
  | [] => 0%nat
  | ev :: rest => ((if f ev then 1 else 0) + count_events f rest)%nat
  end.

Definition is_warning (ev : Event) : bool :=
  match ev with
  | EvLog WARNING _ => true
  | _ => false
  end.

Definition is_error_log (ev : Event) : bool :=
  match ev with
  | EvLog ERROR _ => true
  | _ => false
  end.

(** The events a pricing call can leave in the trace. *)
Definition client_event (ev : Event) : bool :=
  match ev with
  | EvHttpGet _ _ | EvSoapCall _ _ _ => true
  | EvLog ERROR (MsgWsdlFailed _) | EvLog ERROR (MsgSoapFailed _) => true
  | EvLog INFO (MsgApiResponse _) => true
  | _ => false
  end.



(** * Properties *)

(** ** Range tables and representative values *)

(** C7: the postal table has exactly 26 bands and the weight table exactly
    13, the weight bounds run from 1 g to 10000 g, and every band of both
    tables has its end at or above its start.  Both are constants: they
    read no state and cannot fail. *)
Theorem range_tables_fixed :
  length generate_cep_ranges = 26%nat
  /\ length generate_weight_ranges = 13%nat
  /\ head generate_weight_ranges = Some (1, 250)%Z
  /\ last generate_weight_ranges = Some (9001, 10000)%Z
  /\ Forall (fun b => (fst b <= snd b)%Z) generate_cep_ranges
  /\ Forall (fun b => (fst b <= snd b)%Z) generate_weight_ranges
  /\ Forall (fun b => (1 <= fst b /\ snd b <= 10000)%Z) generate_weight_ranges.
Proof.
  repeat split; try reflexivity;
    unfold generate_cep_ranges, generate_weight_ranges;
    repeat (apply Forall_cons; split; [simpl; lia|]); apply Forall_nil_2.
Qed.

Lemma half_shift (a d : Z) : ((2 * a + d) / 2 = a + d / 2)%Z.
Proof.
  replace (2 * a + d)%Z with (d + a * 2)%Z by lia.
  rewrite Z.div_add by lia. lia.
Qed.

(** C6: for every band the representative postal code and the
    representative weight both equal [start + (end - start) // 2] with
    floor division, although the weight is computed as
    [(start + end) // 2]. *)
Theorem representative_is_midpoint (band_start band_end : Z) :
  test_cep band_start band_end = (band_start + (band_end - band_start) / 2)%Z
  /\ test_weight band_start band_end = (band_start + (band_end - band_start) / 2)%Z.
Proof.
  split; [reflexivity|].
  unfold test_weight.
  replace (band_start + band_end)%Z with (2 * band_start + (band_end - band_start))%Z by lia.
  apply half_shift.
Qed.

(** ** Formatting *)

(** C2: the request formatters ignore their argument.  The postal-code
    formatter returns the text [08d] for every code, so 1000000 does not
    come out as [01000000]; the weight formatter returns [.2f] for every
    weight it can divide, so 1500 g does not come out as [1.50]. *)
Theorem request_formatters_return_format_text :
  (forall cep, format_cep_for_api cep = "08d")
  /\ (forall weight_grams, (Z.abs weight_grams < 2 ^ 1023)%Z ->
        format_weight_for_api weight_grams = ".2f")
  /\ format_cep_for_api 1000000 = "08d"
  /\ format_cep_for_api 1000000 <> "01000000"
  /\ format_weight_for_api 1500 = ".2f"
  /\ format_weight_for_api 1500 <> "1.50".
Proof.
  repeat split; discriminate.
Qed.

(** C1: the writer puts the text [.2f] in the AbsoluteMoneyCost column of
    every row, whatever the cost: a result with cost 12.5 is written as
    [1000000,1999999,1,250,.2f,5], not with [12.50]. *)
Theorem written_cost_is_format_text :
  (forall result, dict_get "AbsoluteMoneyCost" (row_dict result) = Some (Py.PyStr ".2f"))
  /\ cost sample_result = 12.5%float
  /\ csv_row sample_result = "1000000,1999999,1,250,.2f,5" +:+ lineterminator
  /\ nth_error (dict_to_list (row_dict sample_result)) 4 = Some ".2f"
  /\ nth_error (dict_to_list (row_dict sample_result)) 4 <> Some "12.50".
Proof.
  repeat split; try reflexivity. discriminate.
Qed.

(** ** The pricing client *)

Ltac unfold_monad :=
  unfold mbind, M_bind, mret, M_ret, try_except, raise, log, emit, sleep,
    getattr, sys_exit in *.

Lemma bind_run {A B} (m : M A) (f : A -> M B) w a w' :
  m w = (Ret a, w') -> (m ≫= f) w = f a w'.
Proof. intros H. unfold mbind, M_bind. by rewrite H. Qed.

Lemma bind_raise {A B} (m : M A) (f : A -> M B) w e w' :
  m w = (Raise e, w') -> (m ≫= f) w = (Raise e, w').
Proof. intros H. unfold mbind, M_bind. by rewrite H. Qed.

Lemma bind_log {B} lvl msg (f : unit -> M B) w :
  (log lvl msg ≫= f) w = f tt (snd (emit (EvLog lvl msg) w)).
Proof. reflexivity. Qed.

Lemma same_but_trace_refl w : same_but_trace 0 w w.
Proof. repeat split. by exists []. Qed.

Lemma same_but_trace_trans j k w1 w2 w3 :
  same_but_trace j w1 w2 -> same_but_trace k w2 w3 -> same_but_trace (j + k) w1 w3.
Proof.
  intros (F1 & G1 & E1 & t1 & T1) (F2 & G2 & E2 & t2 & T2).
  repeat split; try congruence; [lia|].
  exists (t2 ++ t1)%list. rewrite T2, T1. by rewrite app_assoc.
Qed.

Lemma emit_same ev w : same_but_trace 0 w (snd (emit ev w)).
Proof. repeat split. by exists [ev]. Qed.

Lemma get_wsdl_run env api w :
  exists w', get_wsdl env api w = (Ret (match env_get env (S (w_fetches w)) WSDL_URL with
                                        | GetRaises _ => None
                                        | GetReturns r =>
                                            if (400 <=? status_code r)%Z && (status_code r <? 600)%Z
                                            then None else Some (text r)
                                        end), w')
             /\ same_but_trace 1 w w'.
Proof.
  unfold get_wsdl, session_get, raise_for_status. unfold_monad.
  destruct (env_get env (S (w_fetches w)) WSDL_URL) as [msg|r]; simpl.
  - eexists; split; [reflexivity|]. repeat split. simpl. by eexists [_; _].
  - destruct ((400 <=? status_code r)%Z && (status_code r <? 600)%Z); simpl;
      (eexists; split; [reflexivity|]); repeat split; simpl.
    + by eexists [_; _].
    + by eexists [_].
Qed.

Lemma calculate_shipping_cost_run env api params w :
  exists w', calculate_shipping_cost env api params w
             = (Ret (quote env (S (w_fetches w)) params), w')
             /\ same_but_trace 1 w w'.
Proof.
  unfold calculate_shipping_cost.
  destruct (get_wsdl_run env api w) as (w1 & Hrun & Hsame).
  unfold mbind at 1. unfold M_bind at 1. rewrite Hrun.
  unfold quote, fetched_wsdl.
  destruct Hsame as (HF & HG & HE & evs & HT).
  assert (Hbase : same_but_trace 1 w w1) by (repeat split; eauto).
  destruct (env_get env (S (w_fetches w)) WSDL_URL) as [msg|r].
  { exists w1. split; [reflexivity|done]. }
  destruct ((400 <=? status_code r)%Z && (status_code r <? 600)%Z).
  { exists w1. split; [reflexivity|done]. }
  destruct (Py.is_empty (text r)).
  { exists w1. split; [reflexivity|done]. }
  unfold soap_call, py_float, py_int, status_success, price_payload, int_of_value.
  unfold_monad. change (1 + w_fetches w)%nat with (S (w_fetches w)) in HF.
  rewrite <- HF. simpl.
  assert (Hext : forall evs',
             same_but_trace 1 w (mkWorld (w_environ w1) (w_fetches w1)
                                   (evs' ++ w_trace w1)%list (w_files w1))).
  { intros evs'. repeat split; simpl; try done.
    exists (evs' ++ evs)%list. rewrite HT. by rewrite app_assoc. }
  destruct (env_soap env (w_fetches w1) (text r) params) as [msg|res]; simpl.
  { eexists; split; [reflexivity|]. apply (Hext [_; _]). }
  destruct (CodigoProc res) as [code|]; simpl;
    [|eexists; split; [reflexivity|]; apply (Hext [_; _])].
  destruct (Py.eq_one code); simpl;
    [|eexists; split; [reflexivity|]; apply (Hext [_; _])].
  destruct (DadosFrete res) as [[d|]|]; simpl;
    try (eexists; split; [reflexivity|]; first [apply (Hext [_; _]) | apply (Hext [_; _; _])]).
  destruct (ValorServico d) as [v|]; simpl;
    [|eexists; split; [reflexivity|]; apply (Hext [_; _; _])].
  destruct (env_float env (Py.replace Py.comma Py.dot (Py.str v))) as [c|]; simpl;
    [|eexists; split; [reflexivity|]; apply (Hext [_; _; _])].
  destruct (Prazo d) as [p|]; simpl;
    [|eexists; split; [reflexivity|]; apply (Hext [_; _; _])].
  destruct p as [|n|s]; simpl;
    try (eexists; split; [reflexivity|]; first [apply (Hext [_; _]) | apply (Hext [_; _; _])]).
  destruct (env_int env s) as [n|]; simpl;
    eexists; split; try reflexivity; first [apply (Hext [_; _]) | apply (Hext [_; _; _])].
Qed.

Lemma calculate_shipping_cost_value env api params w :
  fst (calculate_shipping_cost env api params w) = Ret (quote env (S (w_fetches w)) params).
Proof.
  destruct (calculate_shipping_cost_run env api params w) as (w' & Hrun & _).
  by rewrite Hrun.
Qed.

Lemma quote_Some_inv env k params q :
  quote env k params = Some q <->
  exists r res,
    env_get env k WSDL_URL = GetReturns r
    /\ (400 <=? status_code r)%Z && (status_code r <? 600)%Z = false
    /\ text r <> ""
    /\ env_soap env k (text r) params = SoapReturns res
    /\ status_success res = true
    /\ price_payload env res = Some q.
Proof.
  unfold quote, fetched_wsdl. split.
  - destruct (env_get env k WSDL_URL) as [msg|r]; [discriminate|].
    destruct ((400 <=? status_code r)%Z && (status_code r <? 600)%Z) eqn:Hc; [discriminate|].
    destruct (text r) as [|c t] eqn:Ht; simpl; [discriminate|].
    destruct (env_soap env k (String c t) params) as [msg|res] eqn:Hs; [discriminate|].
    destruct (status_success res) eqn:Hst; [|discriminate].
    intros Hp. exists r, res. rewrite Ht. repeat split; done.
  - intros (r & res & Hg & Hc & Ht & Hs & Hst & Hp).
    rewrite Hg, Hc. destruct (text r) as [|c t] eqn:Htx; [done|]. simpl.
    rewrite Hs, Hst. done.
Qed.

(** C4: a pricing call always returns to its caller (it raises nothing),
    and it returns a quote exactly when the interface definition was
    fetched, the request went through, the status code of the reply
    indicates success and the price payload is present and well formed.
    It returns [None] when the transport fails on the fetch or on the
    request, when the fetch ends in an HTTP error status, when the status
    code of the reply does not indicate success, and when the payload is
    missing or malformed. *)
Theorem pricing_call_result env api params w :
  let k := S (w_fetches w) in
  let outcome := fst (calculate_shipping_cost env api params w) in
  (exists o, outcome = Ret o)
  /\ (forall q, outcome = Ret (Some q) <->
        exists r res,
          env_get env k WSDL_URL = GetReturns r
          /\ (400 <=? status_code r)%Z && (status_code r <? 600)%Z = false
          /\ text r <> ""
          /\ env_soap env k (text r) params = SoapReturns res
          /\ status_success res = true
          /\ price_payload env res = Some q)
  /\ (forall msg, env_get env k WSDL_URL = GetRaises msg -> outcome = Ret None)
  /\ (forall r, env_get env k WSDL_URL = GetReturns r ->
        (400 <= status_code r < 600)%Z -> outcome = Ret None)
  /\ (forall r msg, env_get env k WSDL_URL = GetReturns r ->
        env_soap env k (text r) params = SoapRaises msg -> outcome = Ret None)
  /\ (forall r res, env_get env k WSDL_URL = GetReturns r ->
        env_soap env k (text r) params = SoapReturns res ->
        status_success res = false -> outcome = Ret None)
  /\ (forall r res, env_get env k WSDL_URL = GetReturns r ->
        env_soap env k (text r) params = SoapReturns res ->
        price_payload env res = None -> outcome = Ret None).
Proof.
  intros k outcome. subst outcome.
  rewrite calculate_shipping_cost_value. fold k.
  split; [by eexists|].
  split.
  { intros q. rewrite <- quote_Some_inv. split; [by intros [= ->]|by intros ->]. }
  assert (Hnone : forall r,
            env_get env k WSDL_URL = GetReturns r ->
            (forall res, env_soap env k (text r) params = SoapReturns res ->
                         status_success res = true -> price_payload env res = None) ->
            quote env k params = None).
  { intros r Hg Hres. unfold quote, fetched_wsdl. rewrite Hg.
    destruct ((400 <=? status_code r)%Z && (status_code r <? 600)%Z); [done|].
    destruct (Py.is_empty (text r)); [done|].
    destruct (env_soap env k (text r) params) as [msg|res]; [done|].
    destruct (status_success res) eqn:Hst; [|done]. by rewrite (Hres res). }
  repeat split.
  - intros msg Hg. unfold quote, fetched_wsdl. by rewrite Hg.
  - intros r Hg [Hlo Hhi]. unfold quote, fetched_wsdl. rewrite Hg.
    apply Z.leb_le in Hlo. apply Z.ltb_lt in Hhi. by rewrite Hlo, Hhi.
  - intros r msg Hg Hs. rewrite (Hnone r Hg); [done|]. intros res Hs'. congruence.
  - intros r res Hg Hs Hst. rewrite (Hnone r Hg); [done|]. intros res' Hs' Hst'. congruence.
  - intros r res Hg Hs Hp. rewrite (Hnone r Hg); [done|]. intros res' Hs' _. congruence.
Qed.

(** The stub service answers with cost 10.0 and five days; a reply whose
    cost is not a number ends in [None], not in an exception. *)
Example pricing_call_samples :
  fst (calculate_shipping_cost stub_env sample_api (make_params "STD" 1500000 125)
         initial_world)
  = Ret (Some (mkApiResult 10%float 5 true))
  /\ price_payload stub_env
       (mkSoapResult (Some (Py.PyInt 1))
          (Some (Some (mkDadosFrete (Some (Py.PyStr "n/a")) (Some (Py.PyInt 5))))))
     = None
  /\ price_payload stub_env (mkSoapResult (Some (Py.PyInt 1)) (Some None)) = None.
Proof. repeat split. Qed.

(** ** The query loop *)

Lemma successful_rows_cons env service k q qs :
  successful_rows env service k (q :: qs)
  = (match row_of env service k q with Some r => [r] | None => [] end
     ++ successful_rows env service (S k) qs)%list.
Proof.
  unfold successful_rows. rewrite imap_cons. simpl.
  replace (k + 0)%nat with k by lia.
  replace (imap ((fun i q0 => row_of env service (k + i) q0) ∘ S) qs)
    with (imap (fun i q0 => row_of env service (S k + i) q0) qs).
  - by destruct (row_of env service k q).
  - apply imap_ext. intros i x _. simpl. f_equal. lia.
Qed.

Lemma successful_rows_app env service k qs1 qs2 :
  successful_rows env service k (qs1 ++ qs2)%list
  = (successful_rows env service k qs1
     ++ successful_rows env service (k + length qs1) qs2)%list.
Proof.
  revert k. induction qs1 as [|q qs1 IH]; intros k.
  - simpl. by replace (k + 0)%nat with k by lia.
  - simpl. rewrite !successful_rows_cons, IH, app_assoc.
    do 2 f_equal. lia.
Qed.

Lemma weight_body_run env api service total cs ce ws we results qc w :
  exists w',
    weight_body env api service total cs ce (test_cep cs ce) (ws, we) (results, qc) w
    = (Ret ((results ++ successful_rows env service (S (w_fetches w)) [((cs, ce), (ws, we))])%list,
            (qc + 1)%Z), w')
    /\ same_but_trace 1 w w'.
Proof.
  unfold weight_body.
  set (params := make_params service (test_cep cs ce) (test_weight ws we)).
  set (w0 := snd (emit (EvLog INFO (MsgProcessing (qc + 1) total cs ce ws we)) w)).
  destruct (calculate_shipping_cost_run env api params w0) as (w1 & Hrun & Hsame).
  assert (H0 : same_but_trace 0 w w0) by apply emit_same.
  rewrite successful_rows_cons. unfold successful_rows, row_of. simpl.
  fold params. change (w_fetches w) with (w_fetches w0).
  rewrite bind_log. fold w0.
  rewrite (bind_run _ _ _ _ _ Hrun).
  destruct (quote env (S (w_fetches w0)) params) as [r|]; unfold_monad; simpl;
    (eexists; split; [by rewrite ?app_nil_r|]);
    apply (same_but_trace_trans 0 1 w w0 _ H0);
    apply (same_but_trace_trans 1 0 w0 w1 _ Hsame);
    destruct w1; repeat split; simpl; by eexists [_; _].
Qed.

Lemma weight_loop_run env api service total cs ce weights :
  forall results qc w,
  exists w',
    for_each weights (weight_body env api service total cs ce (test_cep cs ce)) (results, qc) w
    = (Ret ((results ++ successful_rows env service (S (w_fetches w))
                          (map (pair (cs, ce)) weights))%list,
            (qc + Z.of_nat (length weights))%Z), w')
    /\ same_but_trace (length weights) w w'.
Proof.
  induction weights as [|[ws we] weights IH]; intros results qc w.
  - exists w. simpl. unfold mret, M_ret, successful_rows. simpl.
    rewrite app_nil_r, Z.add_0_r. split; [done|apply same_but_trace_refl].
  - destruct (weight_body_run env api service total cs ce ws we results qc w)
      as (w1 & Hrun & Hsame).
    simpl for_each. rewrite (bind_run _ _ _ _ _ Hrun).
    destruct (IH (results ++ successful_rows env service (S (w_fetches w)) [((cs, ce), (ws, we))])%list
                 (qc + 1)%Z w1) as (w2 & Hrun2 & Hsame2).
    exists w2. split.
    + rewrite Hrun2.
      change (map (pair (cs, ce)) ((ws, we) :: weights))
        with ([((cs, ce), (ws, we))] ++ map (pair (cs, ce)) weights)%list.
      rewrite successful_rows_app, app_assoc. simpl length.
      destruct Hsame as (HF & _). rewrite HF.
      do 2 f_equal. f_equal; [do 2 f_equal|]; lia.
    + apply (same_but_trace_trans 1 (length weights) w w1 w2); done.
Qed.

Lemma cep_loop_run env api service total weights ceps :
  forall results qc w,
  exists w',
    for_each ceps (cep_body env api service total weights) (results, qc) w
    = (Ret ((results ++ successful_rows env service (S (w_fetches w))
                          (list_prod ceps weights))%list,
            (qc + Z.of_nat (length ceps * length weights))%Z), w')
    /\ same_but_trace (length ceps * length weights) w w'.
Proof.
  induction ceps as [|[cs ce] ceps IH]; intros results qc w.
  - exists w. simpl. unfold mret, M_ret, successful_rows. simpl.
    rewrite app_nil_r, Z.add_0_r. split; [done|apply same_but_trace_refl].
  - simpl for_each. unfold cep_body at 1.
    destruct (weight_loop_run env api service total cs ce weights results qc w)
      as (w1 & Hrun & Hsame).
    rewrite (bind_run _ _ _ _ _ Hrun).
    edestruct IH as (w2 & Hrun2 & Hsame2).
    exists w2. split.
    + rewrite Hrun2.
      simpl list_prod. rewrite successful_rows_app, app_assoc, length_map.
      destruct Hsame as (HF & _). rewrite HF. simpl length.
      do 2 f_equal. f_equal; [do 2 f_equal|]; lia.
    + simpl length.
      apply (same_but_trace_trans (length weights) (length ceps * length weights) w w1 w2);
        done.
Qed.

Lemma run_queries_run env api service ceps weights w :
  exists w',
    run_queries env api service ceps weights w
    = (Ret (successful_rows env service (S (w_fetches w)) (list_prod ceps weights),
            Z.of_nat (length ceps * length weights)), w')
    /\ same_but_trace (length ceps * length weights) w w'.
Proof.
  unfold run_queries.
  destruct (cep_loop_run env api service
              (Z.of_nat (length ceps) * Z.of_nat (length weights))%Z weights ceps [] 0%Z w)
    as (w' & Hrun & Hsame).
  exists w'. split; [|done]. by rewrite Hrun.
Qed.

(** ** Table generation *)

Lemma generate_table_run env api service out w :
  exists w',
    generate_table env api service out w
    = (match env_makedirs env (output_dir env) with
       | Some m => Raise (Py.OSError m)
       | None =>
           match env_open env (resolve_output env out) with
           | Some m => Raise (Py.OSError m)
           | None => Ret tt
           end
       end, w')
    /\ w_environ w' = w_environ w
    /\ (env_makedirs env (output_dir env) = None ->
        w_fetches w' = (338 + w_fetches w)%nat
        /\ (env_open env (resolve_output env out) = None ->
            w_files w'
            = <[resolve_output env out :=
                  csv_text (successful_rows env service (S (w_fetches w))
                              (list_prod generate_cep_ranges generate_weight_ranges))]>
                (w_files w))).
Proof.
  unfold generate_table.
  destruct (env_makedirs env (output_dir env)) as [m|] eqn:Hmk.
  { eexists. split; [|split; [|discriminate]].
    - apply bind_raise. unfold makedirs. rewrite Hmk. reflexivity.
    - reflexivity. }
  set (w0 := mkWorld (w_environ w) (w_fetches w)
               (EvMakedirs (output_dir env) :: w_trace w) (w_files w)).
  assert (Hmk' : makedirs env (output_dir env) w = (Ret tt, w0)).
  { unfold makedirs. by rewrite Hmk. }
  rewrite (bind_run _ _ _ _ _ Hmk'). rewrite !bind_log.
  set (w1 := snd (emit _ (snd (emit _ w0)))).
  destruct (run_queries_run env api service generate_cep_ranges generate_weight_ranges w1)
    as (w2 & Hrun & HF & HG & HE & evs & HT).
  rewrite (bind_run _ _ _ _ _ Hrun). simpl fst.
  change (w_fetches w1) with (w_fetches w).
  unfold write_csv.
  destruct (env_open env (resolve_output env out)) as [m|] eqn:Hop.
  - eexists. split; [apply bind_raise; reflexivity|].
    split; [simpl; by rewrite HE|]. intros _. split; [|discriminate]. simpl. by rewrite HF.
  - eexists. split; [erewrite bind_run by reflexivity; reflexivity|].
    split; [simpl; by rewrite HE|]. intros _. split; simpl; [by rewrite HF|].
    intros _. by rewrite HG.
Qed.



(** ** The written text *)

Lemma needs_quote_cons c s : needs_quote (String c s) = special c || needs_quote s.
Proof.
  unfold needs_quote, special. simpl.
  destruct (Py.is_char c Py.comma), (Py.is_char c Py.dquote),
    (Py.is_char c Py.CR), (Py.is_char c Py.LF),
    (Py.contains Py.comma s), (Py.contains Py.dquote s),
    (Py.contains Py.CR s), (Py.contains Py.LF s); reflexivity.
Qed.


Lemma digits_plain d : needs_quote (NilEmpty.string_of_uint d) = false.
Proof.
  induction d; simpl; [reflexivity|..]; rewrite needs_quote_cons, IHd; reflexivity.
Qed.

Lemma str_of_int_plain n : needs_quote (Py.str_of_int n) = false.
Proof.
  unfold Py.str_of_int, NilZero.string_of_int.
  destruct (Z.to_int n) as [d|d]; [|rewrite needs_quote_cons]; unfold NilZero.string_of_uint;
    destruct d; try reflexivity; simpl; rewrite ?needs_quote_cons, ?digits_plain; reflexivity.
Qed.

Lemma count_char_append a s t :
  count_char a (s +:+ t) = (count_char a s + count_char a t)%nat.
Proof. induction s as [|c s IH]; simpl; [done|]. rewrite IH. lia. Qed.

Lemma csv_field_plain s : needs_quote s = false -> csv_field s = s.
Proof. unfold csv_field. by intros ->. Qed.




(** ** Rows of a run *)

Lemma successful_rows_elem env service k queries r :
  r ∈ successful_rows env service k queries <->
  exists i q, queries !! i = Some q /\ row_of env service (k + i) q = Some r.
Proof.
  unfold successful_rows. rewrite list_elem_of_omap. split.
  - intros (o & Hin & Ho). simpl in Ho. subst o.
    apply list_elem_of_lookup in Hin as [i Hi].
    rewrite list_lookup_imap in Hi.
    destruct (queries !! i) as [q|] eqn:Hq; [|done].
    simpl in Hi. exists i, q. split; [done|]. congruence.
  - intros (i & q & Hq & Hrow). exists (Some r). split; [|done].
    apply list_elem_of_lookup. exists i.
    rewrite list_lookup_imap, Hq. simpl. by rewrite Hrow.
Qed.


Lemma successful_rows_none env service queries :
  (forall k p, quote env k p = None) ->
  forall k, successful_rows env service k queries = [].
Proof.
  intros Hnone. induction queries as [|[[cs ce] [ws we]] queries IH]; intros k; [done|].
  rewrite successful_rows_cons. unfold row_of at 1. rewrite Hnone. simpl. apply IH.
Qed.

(** C5: whatever the quotes are, the loop over the fixed tables runs to
    its end: it raises nothing, it issues one pricing call per band pair,
    and the row list it returns holds the rows of exactly the successful
    queries in iteration order (postal bands outermost).  A query whose
    quote is [None] contributes no row, and when the output file can be
    written those rows are what [generate_table] leaves in it. *)
Theorem failed_queries_are_skipped env api service out w :
  let queries := list_prod generate_cep_ranges generate_weight_ranges in
  let k := S (w_fetches w) in
  let rows := omap id (imap (fun i q => row_of env service (k + i) q) queries) in
  (exists w',
      run_queries env api service generate_cep_ranges generate_weight_ranges w
      = (Ret (rows, Z.of_nat (length queries)), w')
      /\ w_fetches w' = (length queries + w_fetches w)%nat)
  /\ (forall r, r ∈ rows <->
         exists i q, queries !! i = Some q /\ row_of env service (k + i) q = Some r)
  /\ (forall i cs ce ws we,
         queries !! i = Some ((cs, ce), (ws, we)) ->
         quote env (k + i) (make_params service (test_cep cs ce) (test_weight ws we)) = None ->
         row_of env service (k + i) ((cs, ce), (ws, we)) = None)
  /\ (env_makedirs env (output_dir env) = None ->
      env_open env (resolve_output env out) = None ->
      exists w',
        generate_table env api service out w = (Ret tt, w')
        /\ w_files w' !! resolve_output env out = Some (csv_text rows)).
Proof.
  intros queries k rows.
  change rows with (successful_rows env service k queries). clear rows.
  split; [|split; [|split]].
  - destruct (run_queries_run env api service generate_cep_ranges generate_weight_ranges w)
      as (w' & Hrun & HF & _).
    exists w'. subst queries. rewrite length_prod. by split.
  - intros r. apply successful_rows_elem.
  - intros i cs ce ws we _ Hq. unfold row_of. by rewrite Hq.
  - intros Hmk Hop.
    destruct (generate_table_run env api service out w) as (w' & Hrun & _ & Hrest).
    rewrite Hmk, Hop in Hrun. destruct (Hrest Hmk) as [_ Hfiles]. specialize (Hfiles Hop).
    exists w'. split; [exact Hrun|]. rewrite Hfiles. apply lookup_insert_eq.
Qed.


(** C10: written with no rows, the output file holds the header line and
    nothing else, whatever it held before; so a run in which every query
    fails (and the file can be written) still returns normally and leaves
    a one-line file. *)
Theorem empty_table_is_header_only env api service out w :
  env_makedirs env (output_dir env) = None ->
  env_open env (resolve_output env out) = None ->
  (forall k p, quote env k p = None) ->
  (forall w0,
      fst (write_csv env [] (resolve_output env out) w0) = Ret tt
      /\ w_files (snd (write_csv env [] (resolve_output env out) w0))
           !! resolve_output env out = Some csv_header)
  /\ csv_header
     = "ZipCodeStart,ZipCodeEnd,WeightStart,WeightEnd,AbsoluteMoneyCost,TimeCost"
       +:+ lineterminator
  /\ line_count csv_header = 1%nat
  /\ exists w',
       generate_table env api service out w = (Ret tt, w')
       /\ w_files w' !! resolve_output env out = Some csv_header.
Proof.
  intros Hmk Hop Hnone. split; [|split; [reflexivity|split; [reflexivity|]]].
  - intros w0. unfold write_csv. rewrite Hop. simpl.
    split; [reflexivity|]. apply lookup_insert_eq.
  - destruct (generate_table_run env api service out w) as (w' & Hrun & _ & Hrest).
    rewrite Hmk, Hop in Hrun. destruct (Hrest Hmk) as [_ Hfiles]. specialize (Hfiles Hop).
    exists w'. split; [exact Hrun|].
    rewrite Hfiles, (successful_rows_none _ _ _ Hnone). apply lookup_insert_eq.
Qed.

(** ** The credential guard *)

Lemma getenv_unset environ name placeholder :
  credential_unset environ name placeholder ->
  match environ !! name with Some v => v | None => placeholder end = placeholder.
Proof. by intros [-> | ->]. Qed.

(** C8 (as amended): when either credential is unset or holds its
    placeholder, [main] ends in [SystemExit(1)] after loading the [.env]
    file and logging two records; no remote call has been made. *)
Theorem main_aborts_without_credentials env w :
  let environ := w_environ w ∪ env_dotenv env in
  credential_unset environ "TOTAL_EXPRESS_USERNAME" "your_username"
  \/ credential_unset environ "TOTAL_EXPRESS_PASSWORD" "your_password" ->
  exists w',
    main env w = (Raise (Py.SystemExit 1), w')
    /\ w_trace w'
       = EvLog INFO MsgCopyEnvExample :: EvLog ERROR MsgSetCredentials
           :: EvLoadDotenv :: w_trace w
    /\ remote_calls (w_trace w') = remote_calls (w_trace w)
    /\ w_fetches w' = w_fetches w.
Proof.
  intros environ Hunset.
  assert (Hguard :
            String.eqb (match environ !! "TOTAL_EXPRESS_USERNAME" with
                        | Some v => v | None => "your_username" end) "your_username"
            || String.eqb (match environ !! "TOTAL_EXPRESS_PASSWORD" with
                           | Some v => v | None => "your_password" end) "your_password"
            = true).
  { destruct Hunset as [H | H]; rewrite (getenv_unset _ _ _ H).
    - reflexivity.
    - apply orb_true_r. }
  unfold main, load_dotenv, getenv. unfold_monad. simpl. fold environ.
  rewrite Hguard. simpl. eexists. split; [reflexivity|]. simpl. done.
Qed.

(** C8, the claim as stated fails for empty values: with both credentials
    set to the empty string, [main] does not abort; it runs both tables to
    the end and issues 676 remote calls. *)
Lemma main_runs_with_empty_credentials :
  (w_environ initial_world ∪ env_dotenv empty_credentials_env)
    !! "TOTAL_EXPRESS_USERNAME" = Some ""
  /\ (w_environ initial_world ∪ env_dotenv empty_credentials_env)
       !! "TOTAL_EXPRESS_PASSWORD" = Some ""
  /\ fst (main empty_credentials_env initial_world) = Ret tt
  /\ length (remote_calls (w_trace (snd (main empty_credentials_env initial_world))))
     = 676%nat.
Proof. vm_compute. repeat split. Qed.

(** ** Sample runs *)


(** A service that rejects every request: the file is the header alone. *)
Lemma empty_table_is_header_only_witness :
  exists w',
    generate_table empty_credentials_env sample_api "EXP" "total_express_express.csv"
      initial_world
    = (Ret tt, w')
    /\ w_files w' !! "/srv/app/output/total_express_express.csv" = Some csv_header.
Proof.
  destruct (empty_table_is_header_only empty_credentials_env sample_api "EXP"
              "total_express_express.csv" initial_world)
    as (_ & _ & _ & w' & Hrun & Hfile).
  - reflexivity.
  - reflexivity.
  - intros k p. reflexivity.
  - exists w'. split; assumption.
Defined.

(** No credentials configured anywhere: the run stops at the guard. *)
Lemma main_aborts_without_credentials_witness :
  exists w',
    main stub_env initial_world = (Raise (Py.SystemExit 1), w')
    /\ remote_calls (w_trace w') = []
    /\ w_fetches w' = 0%nat.
Proof.
  destruct (main_aborts_without_credentials stub_env initial_world)
    as (w' & Hrun & _ & Hremote & Hfetch).
  - left. left. reflexivity.
  - exists w'. repeat split; assumption.
Defined.

(** ** More on bands *)

(** X1: the representative postal code and the representative weight of
    a band whose end is not below its start lie inside the band. *)
Theorem representative_within_band (band_start band_end : Z) :
  (band_start <= band_end)%Z ->
  in_band (band_start, band_end) (test_cep band_start band_end)
  /\ in_band (band_start, band_end) (test_weight band_start band_end).
Proof.
  intros Hle. unfold in_band, test_cep, test_weight. simpl.
  assert (0 <= (band_end - band_start) / 2 <= band_end - band_start)%Z.
  { split; [apply Z.div_pos; lia|]. apply Z.div_le_upper_bound; lia. }
  assert (band_start <= (band_start + band_end) / 2)%Z
    by (apply Z.div_le_lower_bound; lia).
  assert ((band_start + band_end) / 2 <= band_end)%Z
    by (apply Z.div_le_upper_bound; lia).
  lia.
Qed.

Lemma apart_sound a b x : bands_apartb a b = true -> in_band a x -> in_band b x -> False.
Proof.
  unfold bands_apartb, in_band.
  intros [H | H]%orb_true_iff; apply Z.ltb_lt in H; lia.
Qed.

Lemma pairwise_apart_sound (l : list (Z * Z)) :
  pairwise_apartb l = true ->
  forall i j a b x,
    l !! i = Some a -> l !! j = Some b -> in_band a x -> in_band b x -> i = j.
Proof.
  induction l as [|c l IH]; intros Hl i j a b x Hi Hj Ha Hb; [done|].
  simpl in Hl. apply andb_true_iff in Hl as [Hc Hl].
  rewrite forallb_forall in Hc.
  destruct i as [|i], j as [|j]; simpl in *.
  - reflexivity.
  - injection Hi as ->. exfalso.
    apply (apart_sound a b x); [|done..].
    apply Hc. apply list_elem_of_In. by apply list_elem_of_lookup_2 with j.
  - injection Hj as ->. exfalso.
    apply (apart_sound b a x); [|done..].
    apply Hc. apply list_elem_of_In. by apply list_elem_of_lookup_2 with i.
  - f_equal. by apply (IH Hl i j a b x).
Qed.

Lemma contiguous_cover (l : list (Z * Z)) :
  contiguousb l = true ->
  Forall (fun b => (fst b <= snd b)%Z) l ->
  forall first final x,
    head l = Some first -> last l = Some final ->
    (fst first <= x <= snd final)%Z ->
    exists i b, l !! i = Some b /\ in_band b x.
Proof.
  induction l as [|a l IH]; intros Hc Hall first final x Hfirst Hfinal Hx; [done|].
  simpl in Hfirst. injection Hfirst as <-.
  destruct (Z_le_gt_dec x (snd a)) as [Hin | Hout].
  { exists 0%nat, a. split; [done|]. unfold in_band. lia. }
  destruct l as [|b l].
  { simpl in Hfinal. injection Hfinal as <-. lia. }
  apply Forall_cons in Hall as [_ Hall].
  cbn [contiguousb] in Hc. apply andb_true_iff in Hc as [Hab Hc].
  apply Z.eqb_eq in Hab.
  destruct (IH Hc Hall b final x) as (i & c & Hi & Hcx); [done|done|lia|].
  exists (S i), c. done.
Qed.

(** X2: the weight bands partition 1..10000: a weight lies in some band
    exactly when it is between 1 and 10000 grams, and then in one band
    only. *)
Theorem weight_bands_partition (weight : Z) :
  ((1 <= weight <= 10000)%Z <->
   exists i b, generate_weight_ranges !! i = Some b /\ in_band b weight)
  /\ (forall i j a b,
        generate_weight_ranges !! i = Some a ->
        generate_weight_ranges !! j = Some b ->
        in_band a weight -> in_band b weight -> i = j).
Proof.
  split; [split|].
  - intros Hw.
    apply (contiguous_cover generate_weight_ranges) with (first := (1, 250)%Z)
                                                          (final := (9001, 10000)%Z);
      try reflexivity; [|simpl; lia].
    unfold generate_weight_ranges.
    repeat (apply Forall_cons; split; [simpl; lia|]). apply Forall_nil_2.
  - intros (i & b & Hi & Hb).
    assert (Hall : Forall (fun b => (1 <= fst b /\ snd b <= 10000)%Z) generate_weight_ranges).
    { unfold generate_weight_ranges.
      repeat (apply Forall_cons; split; [simpl; lia|]). apply Forall_nil_2. }
    rewrite Forall_forall in Hall.
    destruct (Hall b) as [Hlo Hhi]; [by apply list_elem_of_lookup_2 with i|].
    unfold in_band in Hb. lia.
  - intros i j a b Hi Hj Ha Hb.
    by apply (pairwise_apart_sound generate_weight_ranges eq_refl i j a b weight).
Qed.

(** X3: no postal code lies in two postal bands, every band lies within
    1000000..9999999, and the table has gaps there: the codes
    6900000..6929999, 6940000..6989999 and 7890000..7899999 are in no
    band. *)
Theorem postal_bands_disjoint_with_gaps (cep : Z) :
  (forall i j a b,
      generate_cep_ranges !! i = Some a ->
      generate_cep_ranges !! j = Some b ->
      in_band a cep -> in_band b cep -> i = j)
  /\ (forall i b, generate_cep_ranges !! i = Some b -> in_band b cep ->
                  (1000000 <= cep <= 9999999)%Z)
  /\ (forall i b, generate_cep_ranges !! i = Some b -> in_band b cep ->
                  ~ (6900000 <= cep <= 6929999)%Z
                  /\ ~ (6940000 <= cep <= 6989999)%Z
                  /\ ~ (7890000 <= cep <= 7899999)%Z).
Proof.
  split.
  { intros i j a b Hi Hj Ha Hb.
    by apply (pairwise_apart_sound generate_cep_ranges eq_refl i j a b cep). }
  assert (Hall : Forall (fun b => in_band b cep ->
                           (1000000 <= cep <= 9999999)%Z
                           /\ ~ (6900000 <= cep <= 6929999)%Z
                           /\ ~ (6940000 <= cep <= 6989999)%Z
                           /\ ~ (7890000 <= cep <= 7899999)%Z) generate_cep_ranges).
  { unfold generate_cep_ranges, in_band.
    repeat (apply Forall_cons; split; [simpl; lia|]). apply Forall_nil_2. }
  rewrite Forall_forall in Hall.
  split; intros i b Hi Hb;
    (destruct (Hall b) as (H1 & H2); [by apply list_elem_of_lookup_2 with i|done|]);
    [exact H1|exact H2].
Qed.

(** ** What a pricing call leaves in the trace *)

Lemma total_sleep_app tr1 tr2 :
  total_sleep (tr1 ++ tr2)%list = (total_sleep tr1 + total_sleep tr2)%Z.
Proof. induction tr1 as [|ev tr1 IH]; simpl; [done|]. rewrite IH. lia. Qed.

Lemma count_events_app f tr1 tr2 :
  count_events f (tr1 ++ tr2)%list = (count_events f tr1 + count_events f tr2)%nat.
Proof. induction tr1 as [|ev tr1 IH]; simpl; [done|]. rewrite IH. lia. Qed.

Lemma remote_calls_app tr1 tr2 :
  remote_calls (tr1 ++ tr2)%list = (remote_calls tr1 ++ remote_calls tr2)%list.
Proof. apply filter_app. Qed.

Lemma client_events_quiet evs :
  Forall (fun ev => client_event ev = true) evs ->
  total_sleep evs = 0%Z /\ count_events is_warning evs = 0%nat.
Proof.
  induction 1 as [|ev evs Hev _ [IH1 IH2]]; [done|].
  simpl. rewrite IH1, IH2.
  destruct ev as [[] []| | | | | |]; try discriminate; done.
Qed.

Ltac pricing_leaf :=
  simpl;
  first [ eexists [_]; split; [reflexivity|]
        | eexists [_; _]; split; [reflexivity|]
        | eexists [_; _; _]; split; [reflexivity|]
        | eexists [_; _; _; _]; split; [reflexivity|] ];
  split; [repeat constructor|split; reflexivity].

(** The events of one pricing call, read off the replies. *)
Lemma calculate_shipping_cost_events env api params w :
  let k := S (w_fetches w) in
  exists evs,
    w_trace (snd (calculate_shipping_cost env api params w)) = (evs ++ w_trace w)%list
    /\ Forall (fun ev => client_event ev = true) evs
    /\ remote_calls evs
       = match fetched_wsdl env k with
         | Some wsdl => [EvSoapCall (auth_string api) wsdl params;
                         EvHttpGet (auth_string api) WSDL_URL]
         | None => [EvHttpGet (auth_string api) WSDL_URL]
         end
    /\ count_events is_error_log evs
       = match env_get env k WSDL_URL with
         | GetRaises _ => 1%nat
         | GetReturns r =>
             if (400 <=? status_code r)%Z && (status_code r <? 600)%Z then 1%nat
             else if Py.is_empty (text r) then 0%nat
             else match env_soap env k (text r) params with
                  | SoapRaises _ => 1%nat
                  | SoapReturns res =>
                      if status_success res
                      then match DadosFrete res, price_payload env res with
                           | Some _, None => 1%nat
                           | _, _ => 0%nat
                           end
                      else 0%nat
                  end
         end.
Proof.
  intros k. subst k.
  unfold calculate_shipping_cost, get_wsdl, session_get, raise_for_status, soap_call,
    py_float, py_int, fetched_wsdl, status_success, price_payload, int_of_value.
  unfold_monad.
  destruct (env_get env (S (w_fetches w)) WSDL_URL) as [msg|r]; [pricing_leaf|]. simpl.
  destruct ((400 <=? status_code r)%Z && (status_code r <? 600)%Z); [pricing_leaf|]. simpl.
  destruct (Py.is_empty (text r)); [pricing_leaf|]. simpl.
  destruct (env_soap env (S (w_fetches w)) (text r) params) as [msg|res]; [pricing_leaf|]. simpl.
  destruct (CodigoProc res) as [code|]; [|pricing_leaf]. simpl.
  destruct (Py.eq_one code); [|pricing_leaf]. simpl.
  destruct (DadosFrete res) as [[d|]|]; [|pricing_leaf|pricing_leaf]. simpl.
  destruct (ValorServico d) as [v|]; [|pricing_leaf]. simpl.
  destruct (env_float env (Py.replace Py.comma Py.dot (Py.str v))) as [c|]; [|pricing_leaf]. simpl.
  destruct (Prazo d) as [p|]; [|pricing_leaf]. simpl.
  destruct p as [|n|s]; [pricing_leaf|pricing_leaf|]. simpl.
  destruct (env_int env s) as [n|]; pricing_leaf.
Qed.

(** X5: every pricing call fetches the interface definition anew, with one
    GET of the WSDL address, and follows it with one SOAP call exactly when
    the fetch gave a non-empty body without an HTTP error; it makes no
    other remote call, and both carry the client's credentials. *)
Theorem pricing_call_remote_traffic env api params w :
  remote_calls (w_trace (snd (calculate_shipping_cost env api params w)))
  = (match fetched_wsdl env (S (w_fetches w)) with
     | Some wsdl => [EvSoapCall (auth_string api) wsdl params;
                     EvHttpGet (auth_string api) WSDL_URL]
     | None => [EvHttpGet (auth_string api) WSDL_URL]
     end ++ remote_calls (w_trace w))%list.
Proof.
  destruct (calculate_shipping_cost_events env api params w) as (evs & -> & _ & <- & _).
  apply remote_calls_app.
Qed.

Ltac settle_records :=
  repeat split; intros; simpl in *; simplify_eq; try done; try lia;
  try (intuition congruence).

(** X6: a pricing call logs at most one ERROR record, and only for an
    exception it caught: a failed or refused fetch, a failed request, or a
    payload that is there but does not parse.  It logs none when it
    returns a quote, and none either when it gives up silently: on an
    empty interface definition, on a status code that does not indicate
    success, or on a reply without the payload attribute. *)
Theorem pricing_call_error_records env api params w :
  let k := S (w_fetches w) in
  exists errors,
    count_events is_error_log (w_trace (snd (calculate_shipping_cost env api params w)))
    = (errors + count_events is_error_log (w_trace w))%nat
    /\ (errors <= 1)%nat
    /\ (forall q, quote env k params = Some q -> errors = 0%nat)
    /\ (forall r, env_get env k WSDL_URL = GetReturns r ->
          (400 <=? status_code r)%Z && (status_code r <? 600)%Z = false ->
          text r = "" -> errors = 0%nat)
    /\ (forall wsdl res, fetched_wsdl env k = Some wsdl ->
          env_soap env k wsdl params = SoapReturns res ->
          status_success res = false \/ DadosFrete res = None -> errors = 0%nat)
    /\ (forall msg, env_get env k WSDL_URL = GetRaises msg -> errors = 1%nat)
    /\ (forall r, env_get env k WSDL_URL = GetReturns r ->
          (400 <=? status_code r)%Z && (status_code r <? 600)%Z = true -> errors = 1%nat)
    /\ (forall wsdl msg, fetched_wsdl env k = Some wsdl ->
          env_soap env k wsdl params = SoapRaises msg -> errors = 1%nat)
    /\ (forall wsdl res dados, fetched_wsdl env k = Some wsdl ->
          env_soap env k wsdl params = SoapReturns res ->
          status_success res = true -> DadosFrete res = Some dados ->
          price_payload env res = None -> errors = 1%nat).
Proof.
  intros k.
  destruct (calculate_shipping_cost_events env api params w) as (evs & -> & _ & _ & Herr).
  fold k in Herr.
  exists (count_events is_error_log evs). rewrite count_events_app.
  split; [reflexivity|]. rewrite Herr. clear Herr evs.
  unfold quote, fetched_wsdl.
  destruct (env_get env k WSDL_URL) as [msg|r]; [settle_records|].
  destruct ((400 <=? status_code r)%Z && (status_code r <? 600)%Z) eqn:Hc;
    [settle_records|].
  destruct (Py.is_empty (text r)) eqn:He; [settle_records|].
  assert (Htext : text r <> "") by (by destruct (text r)).
  destruct (env_soap env k (text r) params) as [msg|res] eqn:Hs; [settle_records|].
  destruct (status_success res) eqn:Hst; [|settle_records].
  destruct (DadosFrete res) as [dados|] eqn:Hd, (price_payload env res) as [q|] eqn:Hp;
    settle_records.
Qed.

(** ** Pauses and warnings of a run *)

Lemma single_row_length env service k q :
  length (successful_rows env service k [q])
  = match row_of env service k q with Some _ => 1%nat | None => 0%nat end.
Proof.
  rewrite successful_rows_cons. unfold successful_rows. simpl.
  by destruct (row_of env service k q).
Qed.

Lemma weight_body_events env api service total cs ce ws we results qc w :
  let w' := snd (weight_body env api service total cs ce (test_cep cs ce) (ws, we)
                   (results, qc) w) in
  total_sleep (w_trace w') = (1 + total_sleep (w_trace w))%Z
  /\ (count_events is_warning (w_trace w')
      + length (successful_rows env service (S (w_fetches w)) [((cs, ce), (ws, we))])
      = 1 + count_events is_warning (w_trace w))%nat.
Proof.
  intros w'. subst w'. rewrite single_row_length.
  unfold weight_body, row_of.
  set (params := make_params service (test_cep cs ce) (test_weight ws we)).
  set (w0 := snd (emit (EvLog INFO (MsgProcessing (qc + 1) total cs ce ws we)) w)).
  destruct (calculate_shipping_cost_run env api params w0) as (w1 & Hrun & _).
  destruct (calculate_shipping_cost_events env api params w0) as (evs & Htr & Hev & _).
  rewrite Hrun in Htr. simpl in Htr.
  destruct (client_events_quiet evs Hev) as [Hsl Hwa].
  rewrite bind_log. fold w0. rewrite (bind_run _ _ _ _ _ Hrun).
  change (w_fetches w) with (w_fetches w0).
  destruct (quote env (S (w_fetches w0)) params) as [r|]; unfold_monad; simpl;
    rewrite Htr, total_sleep_app, count_events_app, Hsl, Hwa; simpl; lia.
Qed.

Lemma weight_loop_events env api service total cs ce weights :
  forall results qc w,
    let w' := snd (for_each weights
                     (weight_body env api service total cs ce (test_cep cs ce))
                     (results, qc) w) in
    total_sleep (w_trace w') = (Z.of_nat (length weights) + total_sleep (w_trace w))%Z
    /\ (count_events is_warning (w_trace w')
        + length (successful_rows env service (S (w_fetches w))
                    (map (pair (cs, ce)) weights))
        = length weights + count_events is_warning (w_trace w))%nat.
Proof.
  induction weights as [|[ws we] weights IH]; intros results qc w; [done|].
  destruct (weight_body_run env api service total cs ce ws we results qc w)
    as (w1 & Hrun & HF & _).
  destruct (weight_body_events env api service total cs ce ws we results qc w)
    as [Hsl Hwa].
  rewrite Hrun in Hsl, Hwa. cbn [fst snd] in Hsl, Hwa.
  simpl for_each. rewrite (bind_run _ _ _ _ _ Hrun).
  match goal with |- context [for_each weights ?b ?s w1] =>
    destruct (IH (fst s) (snd s) w1) as [Hsl' Hwa'] end.
  cbn [fst snd] in Hsl', Hwa'. rewrite HF in Hwa'.
  change (map (pair (cs, ce)) ((ws, we) :: weights))
    with ([((cs, ce), (ws, we))] ++ map (pair (cs, ce)) weights)%list.
  rewrite successful_rows_app, length_app. cbn [length].
  replace (S (w_fetches w) + 1)%nat with (S (1 + w_fetches w)) by lia.
  split; lia.
Qed.

Lemma cep_loop_events env api service total weights ceps :
  forall results qc w,
    let w' := snd (for_each ceps (cep_body env api service total weights)
                     (results, qc) w) in
    total_sleep (w_trace w')
    = (Z.of_nat (length ceps * length weights) + total_sleep (w_trace w))%Z
    /\ (count_events is_warning (w_trace w')
        + length (successful_rows env service (S (w_fetches w)) (list_prod ceps weights))
        = length ceps * length weights + count_events is_warning (w_trace w))%nat.
Proof.
  induction ceps as [|[cs ce] ceps IH]; intros results qc w; [done|].
  destruct (weight_loop_run env api service total cs ce weights results qc w)
    as (w1 & Hrun & HF & _).
  destruct (weight_loop_events env api service total cs ce weights results qc w)
    as [Hsl Hwa].
  rewrite Hrun in Hsl, Hwa. cbn [fst snd] in Hsl, Hwa.
  simpl for_each.
  rewrite (bind_run (cep_body env api service total weights (cs, ce) (results, qc))
             _ w _ w1 Hrun).
  match goal with |- context [for_each ceps ?b ?s w1] =>
    destruct (IH (fst s) (snd s) w1) as [Hsl' Hwa'] end.
  cbn [fst snd] in Hsl', Hwa'. rewrite HF in Hwa'.
  cbn [list_prod length]. rewrite successful_rows_app, length_app, length_map.
  replace (S (w_fetches w) + length weights)%nat
    with (S (length weights + w_fetches w)) by lia.
  change (map (fun y : Z * Z => (cs, ce, y)) weights) with (map (pair (cs, ce)) weights).
  split; lia.
Qed.

Lemma run_queries_events env api service ceps weights w :
  let w' := snd (run_queries env api service ceps weights w) in
  total_sleep (w_trace w')
  = (Z.of_nat (length ceps * length weights) + total_sleep (w_trace w))%Z
  /\ (count_events is_warning (w_trace w')
      + length (successful_rows env service (S (w_fetches w)) (list_prod ceps weights))
      = length ceps * length weights + count_events is_warning (w_trace w))%nat.
Proof. apply cep_loop_events. Qed.

(** ** One table, start to end *)

Lemma generate_table_state env api service out w :
  let w' := snd (generate_table env api service out w) in
  let rows := successful_rows env service (S (w_fetches w))
                (list_prod generate_cep_ranges generate_weight_ranges) in
  match env_makedirs env (output_dir env) with
  | Some _ =>
      w' = mkWorld (w_environ w) (w_fetches w)
             (EvMakedirs (output_dir env) :: w_trace w) (w_files w)
  | None =>
      w_fetches w' = (338 + w_fetches w)%nat
      /\ total_sleep (w_trace w') = (338 + total_sleep (w_trace w))%Z
      /\ (count_events is_warning (w_trace w') + length rows
          = 338 + count_events is_warning (w_trace w))%nat
      /\ (exists evs, w_trace w' = (evs ++ EvMakedirs (output_dir env) :: w_trace w)%list)
      /\ w_files w'
         = match env_open env (resolve_output env out) with
           | Some _ => w_files w
           | None => <[resolve_output env out := csv_text rows]> (w_files w)
           end
  end.
Proof.
  intros w' rows. subst w'. unfold generate_table.
  destruct (env_makedirs env (output_dir env)) as [m|] eqn:Hmk.
  { erewrite bind_raise; [reflexivity|]. unfold makedirs. by rewrite Hmk. }
  set (w0 := mkWorld (w_environ w) (w_fetches w)
               (EvMakedirs (output_dir env) :: w_trace w) (w_files w)).
  assert (Hmk' : makedirs env (output_dir env) w = (Ret tt, w0)).
  { unfold makedirs. by rewrite Hmk. }
  rewrite (bind_run _ _ _ _ _ Hmk'). rewrite !bind_log.
  set (w1 := snd (emit _ (snd (emit _ w0)))).
  destruct (run_queries_run env api service generate_cep_ranges generate_weight_ranges w1)
    as (w2 & Hrun & HF & HG & HE & evs & HT).
  destruct (run_queries_events env api service generate_cep_ranges generate_weight_ranges w1)
    as [Hsl Hwa].
  rewrite Hrun in Hsl, Hwa. cbn [fst snd] in Hsl, Hwa.
  rewrite (bind_run _ _ _ _ _ Hrun). cbn [fst].
  change (w_fetches w1) with (w_fetches w) in *.
  change (w_files w1) with (w_files w) in *.
  change (total_sleep (w_trace w1)) with (total_sleep (w_trace w)) in Hsl.
  change (count_events is_warning (w_trace w1))
    with (count_events is_warning (w_trace w)) in Hwa.
  fold rows in Hwa.
  change (length generate_cep_ranges * length generate_weight_ranges)%nat
    with 338%nat in *.
  assert (Htr : exists evs',
             w_trace w2 = (evs' ++ EvMakedirs (output_dir env) :: w_trace w)%list).
  { exists (evs ++ [EvLog INFO (MsgTotalQueries 338); EvLog INFO (MsgStarting service)])%list.
    rewrite HT. by rewrite <- app_assoc. }
  unfold write_csv.
  destruct (env_open env (resolve_output env out)) as [m|] eqn:Hop.
  - erewrite bind_raise by reflexivity. simpl.
    repeat split; try done; try lia.
    destruct Htr as [evs' ->]. by exists (EvOpenWrite (resolve_output env out) :: evs').
  - erewrite bind_run by reflexivity. simpl.
    repeat split; try done; try lia.
    + destruct Htr as [evs' ->].
      by exists (EvLog INFO (MsgCompleted (resolve_output env out))
                 :: EvOpenWrite (resolve_output env out) :: evs').
    + by rewrite HG.
Qed.

(** X7: once the output directory exists, a table run pauses one second
    after every one of its 338 queries, whether the query succeeded or
    not and whether or not the file can be written afterwards: 338 seconds
    in all.  When the directory cannot be made it does not pause at all. *)
Theorem generate_table_pauses env api service out w :
  total_sleep (w_trace (snd (generate_table env api service out w)))
  = (match env_makedirs env (output_dir env) with
     | Some _ => 0
     | None => 338
     end + total_sleep (w_trace w))%Z.
Proof.
  pose proof (generate_table_state env api service out w) as H. cbv zeta in H.
  destruct (env_makedirs env (output_dir env)) as [m|].
  - rewrite H. reflexivity.
  - by destruct H as (_ & -> & _).
Qed.

(** X8: every query of a table run is accounted for: the rows written and
    the WARNING records logged add up to the 338 queries, so the number of
    warnings is the number of rows missing from the table. *)
Theorem generate_table_rows_and_warnings env api service out w :
  let rows := successful_rows env service (S (w_fetches w))
                (list_prod generate_cep_ranges generate_weight_ranges) in
  let warnings tr := count_events is_warning tr in
  env_makedirs env (output_dir env) = None ->
  (warnings (w_trace (snd (generate_table env api service out w))) + length rows
   = 338 + warnings (w_trace w))%nat
  /\ (env_open env (resolve_output env out) = None ->
      w_files (snd (generate_table env api service out w)) !! resolve_output env out
      = Some (csv_text rows)).
Proof.
  intros rows warnings Hmk. subst warnings.
  pose proof (generate_table_state env api service out w) as H. cbv zeta in H.
  rewrite Hmk in H. destruct H as (_ & _ & Hwa & _ & Hfiles).
  split; [exact Hwa|].
  intros Hop. rewrite Hop in Hfiles. rewrite Hfiles. apply lookup_insert_eq.
Qed.


Lemma upto_last_sep_empty p :
  Py.is_empty (Py.upto_last_sep p) = negb (Py.contains Py.sep p).
Proof.
  destruct p as [|c r]; [done|].
  cbn [Py.upto_last_sep]. by destruct (Py.contains Py.sep (String c r)).
Qed.

Lemma rstrip_sep_empty s : Py.is_empty (Py.rstrip_sep s) = Py.all_sep s.
Proof.
  induction s as [|c s IH]; [done|]. simpl. rewrite IH.
  by destruct (Py.is_char c Py.sep), (Py.all_sep s).
Qed.

Lemma dirname_empty p :
  Py.is_empty (Py.dirname p) = negb (Py.contains Py.sep p).
Proof.
  unfold Py.dirname. rewrite <- upto_last_sep_empty.
  destruct (Py.is_empty (Py.upto_last_sep p)) eqn:He; simpl; [done|].
  destruct (Py.all_sep (Py.upto_last_sep p)) eqn:Ha; simpl; [done|].
  by rewrite rstrip_sep_empty.
Qed.

(** X10: a bare file name is placed in the [output] directory beside the
    script, a name that contains a separator is used as it stands; either
    way the first thing a table run does is to make that [output]
    directory. *)
Theorem output_path_resolution env api service out w :
  (Py.contains Py.sep out = false ->
   resolve_output env out = Py.path_join (output_dir env) out)
  /\ (Py.contains Py.sep out = true -> resolve_output env out = out)
  /\ exists evs,
       w_trace (snd (generate_table env api service out w))
       = (evs ++ EvMakedirs (output_dir env) :: w_trace w)%list.
Proof.
  unfold resolve_output. rewrite dirname_empty.
  split; [by intros ->|]. split; [by intros ->|].
  pose proof (generate_table_state env api service out w) as H. cbv zeta in H.
  destruct (env_makedirs env (output_dir env)) as [m|].
  - rewrite H. by exists [].
  - by destruct H as (_ & _ & _ & Htr & _).
Qed.

(** ** The whole program *)







(** ** Requests that do not depend on the band *)

Lemma quote_call_independent env :
  (forall k1 k2 url, env_get env k1 url = env_get env k2 url) ->
  (forall k1 k2 wsdl p, env_soap env k1 wsdl p = env_soap env k2 wsdl p) ->
  forall k1 k2 p, quote env k1 p = quote env k2 p.
Proof.
  intros Hget Hsoap k1 k2 p. unfold quote, fetched_wsdl.
  rewrite (Hget k1 k2). destruct (env_get env k2 WSDL_URL) as [msg|r]; [done|].
  destruct ((400 <=? status_code r)%Z && (status_code r <? 600)%Z); [done|].
  destruct (Py.is_empty (text r)); [done|]. by rewrite (Hsoap k1 k2).
Qed.

Lemma uniform_rows env service (answer : option ApiResult) queries :
  (forall k cep weight, quote env k (make_params service cep weight) = answer) ->
  forall k,
    successful_rows env service k queries
    = match answer with
      | Some r =>
          map (fun q => mkShippingResult (fst (fst q)) (snd (fst q))
                          (fst (snd q)) (snd (snd q))
                          (api_cost r) (api_delivery_days r) service) queries
      | None => []
      end.
Proof.
  intros Hq. induction queries as [|[[cs ce] [ws we]] queries IH]; intros k.
  - by destruct answer.
  - rewrite successful_rows_cons, IH. unfold row_of. rewrite Hq.
    by destruct answer.
Qed.

(** X4: the request parameters of a query do not depend on its band, so
    a pricing service whose replies depend on the request alone, not on
    when it is asked, answers all 338 queries of a table alike: the loop
    returns either no row at all or 338 rows that all carry the same cost
    and the same delivery time. *)
Theorem same_request_same_row env api service w :
  (forall k1 k2 url, env_get env k1 url = env_get env k2 url) ->
  (forall k1 k2 wsdl p, env_soap env k1 wsdl p = env_soap env k2 wsdl p) ->
  (forall cep weight cep' weight',
      make_params service cep weight = make_params service cep' weight')
  /\ exists rows,
       fst (run_queries env api service generate_cep_ranges generate_weight_ranges w)
       = Ret (rows, 338%Z)
       /\ (rows = []
           \/ length rows = 338%nat
              /\ exists c days, forall r, r ∈ rows -> cost r = c /\ delivery_days r = days).
Proof.
  intros Hget Hsoap. split; [reflexivity|].
  destruct (run_queries_run env api service generate_cep_ranges generate_weight_ranges w)
    as (w' & Hrun & _).
  rewrite Hrun. eexists. split; [reflexivity|].
  set (answer := quote env 1 (make_params service 0 0)).
  rewrite (uniform_rows env service answer).
  - destruct answer as [r|]; [right|by left].
    split; [by rewrite length_map|].
    exists (api_cost r), (api_delivery_days r). intros row Hin.
    apply list_elem_of_fmap in Hin as (q & -> & _). done.
  - intros k cep weight. apply (quote_call_independent env Hget Hsoap).
Qed.

(** ** Credentials on the wire *)

Lemma split_at_char c u1 :
  forall u2 r1 r2,
    Py.contains c u1 = false -> Py.contains c u2 = false ->
    u1 +:+ String c r1 = u2 +:+ String c r2 -> u1 = u2 /\ r1 = r2.
Proof.
  unfold Py.contains, Py.is_char.
  induction u1 as [|a u1 IH]; intros [|b u2] r1 r2 H1 H2 Heq; simpl in *.
  - by injection Heq.
  - injection Heq as <- _. by rewrite Ascii.eqb_refl in H2.
  - injection Heq as -> _. by rewrite Ascii.eqb_refl in H1.
  - injection Heq as -> Heq.
    apply orb_false_elim in H1 as [_ H1]. apply orb_false_elim in H2 as [_ H2].
    destruct (IH u2 r1 r2 H1 H2 Heq) as [-> ->]. done.
Qed.

(** X13: the text sent as credentials is [username:password]; it tells the
    two apart as long as user names hold no colon, and not otherwise:
    user [a:b] with password [c] and user [a] with password [b:c] are
    sent alike. *)
Theorem auth_string_tells_credentials :
  (forall a b,
      Py.contains ":"%char (username a) = false ->
      Py.contains ":"%char (username b) = false ->
      auth_string a = auth_string b -> a = b)
  /\ auth_string (mkTotalExpressAPI "a:b" "c") = auth_string (mkTotalExpressAPI "a" "b:c").
Proof.
  split; [|reflexivity].
  intros [u1 p1] [u2 p2] H1 H2 Heq. unfold auth_string in Heq. simpl in *.
  destruct (split_at_char ":"%char u1 u2 p1 p2 H1 H2 Heq) as [-> ->]. done.
Qed.

(** ** Lines of the table file *)

Lemma str_of_int_inj a b : Py.str_of_int a = Py.str_of_int b -> a = b.
Proof.
  unfold Py.str_of_int. intros Heq. apply DecimalZ.to_int_inj.
  assert (Hnn : forall z, Z.to_int z <> Decimal.Pos Decimal.Nil
                          /\ Z.to_int z <> Decimal.Neg Decimal.Nil).
  { intros [|p|p]; simpl; split; try discriminate;
      intros [= H]; by apply DecimalPos.Unsigned.to_uint_nonnil in H. }
  assert (Some (Z.to_int a) = Some (Z.to_int b)) as [= ->]; [|done].
  rewrite <- (NilZero.isi (Z.to_int a)), <- (NilZero.isi (Z.to_int b));
    try apply Hnn. by rewrite Heq.
Qed.

Lemma plain_has_no (s : string) :
  needs_quote s = false ->
  Py.contains Py.comma s = false /\ Py.contains Py.dquote s = false
  /\ Py.contains Py.CR s = false /\ Py.contains Py.LF s = false.
Proof.
  unfold needs_quote. intros H.
  apply orb_false_elim in H as [H H4]. apply orb_false_elim in H as [H H3].
  apply orb_false_elim in H as [H1 H2]. done.
Qed.

Lemma contains_count a s : Py.contains a s = false -> count_char a s = 0%nat.
Proof.
  induction s as [|c s IH]; simpl; [done|].
  intros [-> H]%orb_false_elim. by rewrite IH.
Qed.

Lemma append_String_assoc a c b t : (a +:+ String c b) +:+ t = a +:+ String c (b +:+ t).
Proof.
  induction a as [|x a IH]; [done|].
  change (String x ((a +:+ String c b) +:+ t) = String x (a +:+ String c (b +:+ t))).
  by rewrite IH.
Qed.

Lemma csv_row_text r :
  csv_row r
  = Py.str_of_int (cep_start r) +:+ String Py.comma
      (Py.str_of_int (cep_end r) +:+ String Py.comma
         (Py.str_of_int (weight_start r) +:+ String Py.comma
            (Py.str_of_int (weight_end r) +:+ String Py.comma
               (".2f" +:+ String Py.comma
                  (Py.str_of_int (delivery_days r) +:+ lineterminator))))).
Proof.
  unfold csv_row, csv_record, dict_to_list, row_dict, fieldnames. simpl.
  rewrite !csv_field_plain by first [apply str_of_int_plain | reflexivity].
  rewrite !append_String_assoc. reflexivity.
Qed.

(** X14: a line of the table file tells the postal band, the weight band
    and the delivery days of its row, and nothing else: two results are
    written as the same line exactly when they agree on those five
    numbers, whatever their cost and service type. *)
Theorem csv_row_tells_bounds_and_days r1 r2 :
  csv_row r1 = csv_row r2
  <-> bounds r1 = bounds r2 /\ delivery_days r1 = delivery_days r2.
Proof.
  rewrite !csv_row_text. split.
  - intros H.
    assert (Hc : forall n, Py.contains Py.comma (Py.str_of_int n) = false)
      by (intros n; apply plain_has_no, str_of_int_plain).
    assert (Hr : forall n, Py.contains Py.CR (Py.str_of_int n) = false)
      by (intros n; apply plain_has_no, str_of_int_plain).
    apply split_at_char in H as [H1 H]; [|apply Hc..].
    apply split_at_char in H as [H2 H]; [|apply Hc..].
    apply split_at_char in H as [H3 H]; [|apply Hc..].
    apply split_at_char in H as [H4 H]; [|apply Hc..].
    apply split_at_char in H as [_ H]; [|reflexivity..].
    apply split_at_char in H as [H5 _]; [|apply Hr..].
    apply str_of_int_inj in H1, H2, H3, H4, H5.
    unfold bounds. by rewrite H1, H2, H3, H4, H5.
  - unfold bounds. intros [[= -> -> -> ->] ->]. reflexivity.
Qed.

(** X15: whatever the rows hold, the table text has one line per row plus
    the header, five commas on every line and no quote character: no
    field is ever quoted. *)
Theorem csv_text_shape results :
  line_count (csv_text results) = S (length results)
  /\ count_char Py.comma (csv_text results) = (5 * S (length results))%nat
  /\ count_char Py.dquote (csv_text results) = 0%nat
  /\ count_char Py.CR (csv_text results) = S (length results).
Proof.
  assert (Hrow : forall r,
             count_char Py.LF (csv_row r) = 1%nat
             /\ count_char Py.comma (csv_row r) = 5%nat
             /\ count_char Py.dquote (csv_row r) = 0%nat
             /\ count_char Py.CR (csv_row r) = 1%nat).
  { intros r. rewrite csv_row_text.
    assert (Hz : forall n a, Py.contains a (Py.str_of_int n) = false ->
                             count_char a (Py.str_of_int n) = 0%nat)
      by (intros n a; apply contains_count).
    destruct (plain_has_no _ (str_of_int_plain (cep_start r))) as (A1 & A2 & A3 & A4).
    destruct (plain_has_no _ (str_of_int_plain (cep_end r))) as (B1 & B2 & B3 & B4).
    destruct (plain_has_no _ (str_of_int_plain (weight_start r))) as (C1 & C2 & C3 & C4).
    destruct (plain_has_no _ (str_of_int_plain (weight_end r))) as (D1 & D2 & D3 & D4).
    destruct (plain_has_no _ (str_of_int_plain (delivery_days r))) as (E1 & E2 & E3 & E4).
    repeat split;
      repeat (rewrite count_char_append; cbn [count_char]);
      rewrite !Hz by assumption; reflexivity. }
  unfold line_count, csv_text, csv_lines. cbn [concat_strings].
  rewrite !count_char_append.
  change (count_char Py.LF csv_header) with 1%nat.
  change (count_char Py.comma csv_header) with 5%nat.
  change (count_char Py.dquote csv_header) with 0%nat.
  change (count_char Py.CR csv_header) with 1%nat.
  induction results as [|r results (IH1 & IH2 & IH3 & IH4)]; [done|].
  destruct (Hrow r) as (R1 & R2 & R3 & R4).
  cbn [map concat_strings length]. rewrite !count_char_append, R1, R2, R3, R4.
  repeat split; lia.
Qed.

(** ** Looking a shipment up in the table *)

Lemma all_apart_sublist (l1 l2 : list ((Z * Z) * (Z * Z))) :
  sublist l1 l2 -> all_apartb l2 = true -> all_apartb l1 = true.
Proof.
  induction 1 as [|q l1 l2 Hsub IH|q l1 l2 Hsub IH]; [done|..]; simpl;
    intros [Hq Hrest]%andb_true_iff.
  - rewrite (IH Hrest), andb_true_r.
    rewrite forallb_forall in Hq |- *. intros x Hx. apply Hq.
    apply list_elem_of_In. apply (elem_of_sublist l1 l2 x); [|exact Hsub].
    by apply list_elem_of_In.
  - by apply IH.
Qed.

Lemma all_apart_sound (l : list ((Z * Z) * (Z * Z))) cep weight :
  all_apartb l = true ->
  forall i j q1 q2,
    l !! i = Some q1 -> l !! j = Some q2 ->
    in_band (fst q1) cep -> in_band (snd q1) weight ->
    in_band (fst q2) cep -> in_band (snd q2) weight -> i = j.
Proof.
  assert (Hclash : forall q1 q2,
             queries_apartb q1 q2 = true ->
             in_band (fst q1) cep -> in_band (snd q1) weight ->
             in_band (fst q2) cep -> in_band (snd q2) weight -> False).
  { unfold queries_apartb, bands_apartb, in_band.
    intros q1 q2 [[H|H]%orb_true_iff|[H|H]%orb_true_iff]%orb_true_iff;
      apply Z.ltb_lt in H; lia. }
  induction l as [|q l IH]; intros Hl i j q1 q2 Hi Hj A1 A2 B1 B2; [done|].
  simpl in Hl. apply andb_true_iff in Hl as [Hq Hl].
  rewrite forallb_forall in Hq.
  destruct i as [|i], j as [|j]; simpl in *.
  - reflexivity.
  - injection Hi as ->. exfalso. apply (Hclash q1 q2); try done.
    apply Hq, list_elem_of_In. by apply list_elem_of_lookup_2 with j.
  - injection Hj as ->. exfalso. apply (Hclash q2 q1); try done.
    apply Hq, list_elem_of_In. by apply list_elem_of_lookup_2 with i.
  - f_equal. by apply (IH Hl i j q1 q2).
Qed.

Lemma bounds_of_rows_sublist env service queries :
  forall k, sublist (map bounds (successful_rows env service k queries)) queries.
Proof.
  induction queries as [|[[cs ce] [ws we]] queries IH]; intros k; [done|].
  rewrite successful_rows_cons. unfold row_of at 1.
  destruct (quote env k (make_params service (test_cep cs ce) (test_weight ws we)));
    simpl.
  - apply sublist_skip, IH.
  - apply sublist_cons, IH.
Qed.

(** X16: in the rows a table run returns, whichever queries failed, no two
    rows match the same shipment: a postal code and a weight lie within
    the bands of at most one row. *)
Theorem table_rows_never_overlap env api service w (cep weight : Z) :
  exists rows,
    fst (run_queries env api service generate_cep_ranges generate_weight_ranges w)
    = Ret (rows, 338%Z)
    /\ forall i j r1 r2,
         rows !! i = Some r1 -> rows !! j = Some r2 ->
         in_band (cep_start r1, cep_end r1) cep ->
         in_band (weight_start r1, weight_end r1) weight ->
         in_band (cep_start r2, cep_end r2) cep ->
         in_band (weight_start r2, weight_end r2) weight ->
         i = j.
Proof.
  destruct (run_queries_run env api service generate_cep_ranges generate_weight_ranges w)
    as (w' & Hrun & _).
  rewrite Hrun. eexists. split; [reflexivity|].
  set (queries := list_prod generate_cep_ranges generate_weight_ranges).
  set (rows := successful_rows env service (S (w_fetches w)) queries).
  assert (Hall : all_apartb (map bounds rows) = true).
  { apply (all_apart_sublist _ queries); [apply bounds_of_rows_sublist|].
    vm_compute. reflexivity. }
  intros i j r1 r2 Hi Hj A1 A2 B1 B2.
  apply (all_apart_sound (map bounds rows) cep weight Hall i j (bounds r1) (bounds r2));
    try done; rewrite list_lookup_fmap; [by rewrite Hi|by rewrite Hj].
Qed.

(** ** More sample runs *)

(** The first weight band, 1 g to 250 g. *)
Lemma representative_within_band_witness :
  in_band (1, 250)%Z (test_cep 1 250) /\ in_band (1, 250)%Z (test_weight 1 250).
Proof. apply (representative_within_band 1 250). lia. Defined.

(** The stub service answers every request alike. *)
Lemma same_request_same_row_witness :
  exists rows,
    fst (run_queries stub_env sample_api "STD" generate_cep_ranges generate_weight_ranges
           initial_world)
    = Ret (rows, 338%Z)
    /\ (rows = []
        \/ length rows = 338%nat
           /\ exists c days, forall r, r ∈ rows -> cost r = c /\ delivery_days r = days).
Proof.
  destruct (same_request_same_row stub_env sample_api "STD" initial_world) as [_ H].
  - intros k1 k2 url. reflexivity.
  - intros k1 k2 wsdl p. reflexivity.
  - exact H.
Defined.

(** A service that rejects every request: 338 warnings and no row. *)
Lemma generate_table_rows_and_warnings_witness :
  (count_events is_warning
     (w_trace (snd (generate_table empty_credentials_env sample_api "STD"
                      "total_express_standard.csv" initial_world)))
   + length (successful_rows empty_credentials_env "STD" 1
               (list_prod generate_cep_ranges generate_weight_ranges))
   = 338 + 0)%nat.
Proof.
  apply (generate_table_rows_and_warnings empty_credentials_env sample_api "STD"
           "total_express_standard.csv" initial_world).
  reflexivity.
Defined.

